(** * The MPT custom pyfunc of the MLflow "custom pyfunc for LLMs" notebook

    The notebook defines one class, [MPT(mlflow.pyfunc.PythonModel)], with the
    methods [load_context], [_build_prompt] and [predict].  Everything else it
    touches (transformers, torch, pandas) is an external library.

    The embedding keeps that split.  The methods are programs over the
    adapter object [self] that issue _calls_ to the external library; what the
    library answers is left to a _handler_, an arbitrary function of an
    arbitrary world state.  Python exceptions are explicit: a call answers
    [Ok x] or [Raise e], attribute and item look-ups raise [AttributeError],
    [KeyError] and [IndexError] as in Python, and assignments to [self.*]
    made before an exception stay made. *)

From Stdlib Require Import ZArith String Ascii List.
From Stdlib Require Import Floats.PrimFloat.
From stdpp Require Import gmap strings list.

Open Scope string_scope.
Open Scope list_scope.

(* A decimal float literal denotes the nearest binary64 value, in Python as
   here: [0.1] is [0x1.999999999999ap-4]. *)
Set Warnings "-inexact-float".

(* ===================================================================== *)
(** * Python values and exceptions                                         *)
(* ===================================================================== *)

(** The values a [params] dictionary can hold.  The adapter never computes
    with them: it hands them to [model.generate] unchanged. *)
Inductive pyval : Type :=
| PyNone
| PyBool (b : bool)
| PyInt (z : Z)
| PyFloat (f : float)
| PyStr (s : string).

Inductive exn : Type :=
| KeyError (key : string)          (* missing dict key / DataFrame label *)
| IndexError                       (* tensor indexed out of range *)
| AttributeError (attr : string)   (* self.<attr> never assigned *)
| LibraryError (kind msg : string). (* whatever transformers / torch raise *)

Inductive outcome (A : Type) : Type :=
| Ok (a : A)
| Raise (e : exn).
Arguments Ok {A} a.
Arguments Raise {A} e.

Definition is_ok {A} (o : outcome A) : bool :=
  match o with Ok _ => true | Raise _ => false end.

Definition error_of {A} (o : outcome A) : option exn :=
  match o with Ok _ => None | Raise e => Some e end.

(* ===================================================================== *)
(** * The external library                                                 *)
(* ===================================================================== *)

(** Objects of the library are opaque references. *)
Inductive Tokenizer : Type := TokenizerObj (id : positive).
Inductive Config : Type := ConfigObj (id : positive).
Inductive Model : Type := ModelObj (id : positive).
Inductive dtype : Type := bfloat16 | float16 | float32.

(** [return_tensors="pt"] gives a 2-D integer tensor, one row per sequence;
    a row ([output[0]]) is a 1-D tensor of token ids. *)
Abbreviation Tensor := (list (list Z)).

(** The calls the class makes, with the arguments it passes, indexed by the
    type of what the call returns. *)
Inductive call : Type -> Type :=
| AutoTokenizer_from_pretrained
    (path : string) (padding_side : string) : call Tokenizer
| AutoConfig_from_pretrained
    (path : string) (trust_remote_code : bool) : call Config
| AutoModelForCausalLM_from_pretrained
    (path : string) (config : Config) (torch_dtype : dtype)
    (trust_remote_code : bool) : call Model
| model_to (m : Model) (device : string) : call Model
| model_eval (m : Model) : call Model
| tokenizer_encode
    (t : Tokenizer) (text : string) (return_tensors : string) : call Tensor
| tensor_to (x : Tensor) (device : string) : call Tensor
| model_generate
    (m : Model) (inputs : Tensor) (do_sample : bool)
    (temperature : pyval) (max_new_tokens : pyval) : call Tensor
| tokenizer_decode
    (t : Tokenizer) (ids : list Z) (skip_special_tokens : bool) : call string.

(** One entry of the call log: the call and what the library answered. *)
Inductive event : Type :=
| Event {X : Type} (c : call X) (o : outcome X).

Definition ev_error (ev : event) : option exn :=
  match ev with Event _ o => error_of o end.

(** The three loading routines of [load_context]. *)
Definition is_from_pretrained (ev : event) : bool :=
  match ev with
  | Event c _ =>
      match c with
      | AutoTokenizer_from_pretrained _ _ => true
      | AutoConfig_from_pretrained _ _ => true
      | AutoModelForCausalLM_from_pretrained _ _ _ _ => true
      | _ => false
      end
  end.

(** The arguments of a [model.generate] call. *)
Record generate_args : Type := GenerateArgs {
  ga_inputs : Tensor;
  ga_do_sample : bool;
  ga_temperature : pyval;
  ga_max_new_tokens : pyval
}.

Definition generate_of (ev : event) : option generate_args :=
  match ev with
  | Event c _ =>
      match c with
      | model_generate _ x ds t n => Some (GenerateArgs x ds t n)
      | _ => None
      end
  end.

Definition generate_calls (tr : list event) : list generate_args :=
  omap generate_of tr.

(* ===================================================================== *)
(** * The adapter object and its methods as programs                       *)
(* ===================================================================== *)

(** [self]: an attribute is [None] until [load_context] assigns it. *)
Record MPT : Type := {
  tokenizer : option Tokenizer;
  model : option Model
}.

(** [MPT()]: no attribute assigned yet. *)
Definition new_instance : MPT := {| tokenizer := None; model := None |}.

(** A program ends by returning or raising, with [self] as it then is, or
    calls the library and continues with the answer.  The continuation
    receives a raised exception too: a program of this type _could_ catch
    it, retry or return something else. *)
Inductive prog (R : Type) : Type :=
| Return (r : R) (self : MPT)
| Throw (e : exn) (self : MPT)
| Call {X : Type} (c : call X) (k : outcome X -> prog R).
Arguments Return {R} r self.
Arguments Throw {R} e self.
Arguments Call {R X} c k.

Definition method (R : Type) : Type := MPT -> prog R.

Fixpoint bind_prog {A B} (p : prog A) (f : A -> method B) : prog B :=
  match p with
  | Return a self => f a self
  | Throw e self => Throw e self
  | Call c k => Call c (fun o => bind_prog (k o) f)
  end.

Definition ret {A} (a : A) : method A := fun self => Return a self.
Definition throw {A} (e : exn) : method A := fun self => Throw e self.
Definition bind {A B} (m : method A) (f : A -> method B) : method B :=
  fun self => bind_prog (m self) f.

Notation "x <- m ;; k" := (bind m (fun x => k))
  (at level 100, m at next level, right associativity).
Notation "m ;; k" := (bind m (fun _ => k))
  (at level 100, right associativity).

(** A library call outside any [try]: an exception it raises leaves the
    method at once. *)
Definition invoke {X} (c : call X) : method X :=
  fun self =>
    Call c (fun o => match o with
                     | Ok x => Return x self
                     | Raise e => Throw e self
                     end).

(** [self.tokenizer], [self.model] read and assigned. *)
Definition get_tokenizer : method Tokenizer :=
  fun self => match tokenizer self with
              | Some t => Return t self
              | None => Throw (AttributeError "tokenizer") self
              end.

Definition get_model : method Model :=
  fun self => match model self with
              | Some m => Return m self
              | None => Throw (AttributeError "model") self
              end.

Definition set_tokenizer (t : Tokenizer) : method unit :=
  fun self => Return tt {| tokenizer := Some t; model := model self |}.

Definition set_model (m : Model) : method unit :=
  fun self => Return tt {| tokenizer := tokenizer self; model := Some m |}.

(** [d[key]] on a dict, and on a DataFrame ([df["prompt"]] is the column). *)
Definition getitem {V} (d : gmap string V) (key : string) : method V :=
  match d !! key with
  | Some v => ret v
  | None => throw (KeyError key)
  end.

(** [column[0]]: the entry labelled 0 of a column with the default index. *)
Definition column_getitem (column : list string) (i : nat) : method string :=
  match column !! i with
  | Some v => ret v
  | None => throw (KeyError "0")
  end.

(** [x[i]] on a tensor. *)
Definition tensor_getitem {A} (x : list A) (i : nat) : method A :=
  match x !! i with
  | Some row => ret row
  | None => throw IndexError
  end.

(* ===================================================================== *)
(** * class MPT(mlflow.pyfunc.PythonModel)                                 *)
(* ===================================================================== *)

(** [context]: only [context.artifacts] is read. *)
Record PythonModelContext : Type := {
  artifacts : gmap string string
}.

(** [load_context(self, context)].  Each statement evaluates
    [context.artifacts["snapshot"]] anew, calls the loading routine and only
    then assigns the attribute. *)
Definition load_context (context : PythonModelContext) : method unit :=
  snapshot <- getitem (artifacts context) "snapshot" ;;
  t <- invoke (AutoTokenizer_from_pretrained snapshot "left") ;;
  set_tokenizer t ;;
  snapshot <- getitem (artifacts context) "snapshot" ;;
  config <- invoke (AutoConfig_from_pretrained snapshot true) ;;
  snapshot <- getitem (artifacts context) "snapshot" ;;
  m <- invoke (AutoModelForCausalLM_from_pretrained snapshot config bfloat16 true) ;;
  set_model m ;;
  m <- get_model ;;
  invoke (model_to m "cpu") ;;
  m <- get_model ;;
  invoke (model_eval m) ;;
  ret tt.

Definition INSTRUCTION_KEY : string := "### Instruction:".
Definition RESPONSE_KEY : string := "### Response:".
Definition INTRO_BLURB : string :=
  "Below is an instruction that describes a task. " +:+
  "Write a response that appropriately completes the request.".

(** The line break of the triple-quoted f-string and the eight blanks the
    next line of the method body starts with. *)
Definition line_break : string := String "010"%char "        ".

(** [_build_prompt(self, instruction)]. *)
Definition _build_prompt (instruction : string) : string :=
  INTRO_BLURB +:+ line_break +:+
  INSTRUCTION_KEY +:+ line_break +:+
  instruction +:+ line_break +:+
  RESPONSE_KEY +:+ line_break.

(** [params.get(key, dflt) if params else dflt]: [None] and the empty dict
    are both false in Python. *)
Definition param_or_default
    (params : option (gmap string pyval)) (key : string) (dflt : pyval) : pyval :=
  match params with
  | Some d => if bool_decide (d = ∅) then dflt else default dflt (d !! key)
  | None => dflt
  end.

(** The dict [predict] returns. *)
Abbreviation PredictionResult := (gmap string (list string)).

(** [predict(self, context, model_input, params=None)].  [model_input] is the
    DataFrame: column name to column entries. *)
Definition predict (context : PythonModelContext)
    (model_input : gmap string (list string))
    (params : option (gmap string pyval)) : method PredictionResult :=
  column <- getitem model_input "prompt" ;;
  prompt <- column_getitem column 0 ;;
  let temperature := param_or_default params "temperature" (PyFloat 0.1) in
  let max_tokens := param_or_default params "max_tokens" (PyInt 1000) in
  let prompt := _build_prompt prompt in
  t <- get_tokenizer ;;
  x <- invoke (tokenizer_encode t prompt "pt") ;;
  encoded_input <- invoke (tensor_to x "cpu") ;;
  m <- get_model ;;
  output <- invoke (model_generate m encoded_input true temperature max_tokens) ;;
  t <- get_tokenizer ;;
  output0 <- tensor_getitem output 0 ;;
  generated_text <- invoke (tokenizer_decode t output0 true) ;;
  t <- get_tokenizer ;;
  x <- invoke (tokenizer_encode t prompt "pt") ;;
  x0 <- tensor_getitem x 0 ;;
  let prompt_length := length x0 in
  t <- get_tokenizer ;;
  output0 <- tensor_getitem output 0 ;;
  generated_response <- invoke (tokenizer_decode t (drop prompt_length output0) true) ;;
  ret {[ "candidates" := [generated_response] ]}.

(** Initialize followed by Generate on a new instance, as
    [mlflow.pyfunc.load_model] and [loaded_model.predict] do. *)
Definition load_then_predict (context : PythonModelContext)
    (model_input : gmap string (list string))
    (params : option (gmap string pyval)) : method PredictionResult :=
  load_context context ;;
  predict context model_input params.

(** [needle in hay] on Python strings. *)
Fixpoint contains (needle hay : string) : bool :=
  String.prefix needle hay ||
  match hay with
  | EmptyString => false
  | String _ rest => contains needle rest
  end.

(* ===================================================================== *)
(** * Running a program against a library                                  *)
(* ===================================================================== *)

(** The library: answers a call in a world and leaves a world. *)
Definition handler (W : Type) : Type :=
  forall X : Type, call X -> W -> outcome X * W.

Record run_result (R W : Type) : Type := RunResult {
  res : outcome R;          (* returned value or raised exception *)
  self_after : MPT;         (* the adapter object afterwards *)
  trace : list event;       (* the library calls made, in order *)
  world_after : W
}.
Arguments RunResult {R W} res self_after trace world_after.
Arguments res {R W} r.
Arguments self_after {R W} r.
Arguments trace {R W} r.
Arguments world_after {R W} r.

Fixpoint run {R W} (h : handler W) (p : prog R) (w : W) : run_result R W :=
  match p with
  | Return r self => RunResult (Ok r) self [] w
  | Throw e self => RunResult (Raise e) self [] w
  | Call c k =>
      let ow := h _ c w in
      let r := run h (k (fst ow)) (snd ow) in
      RunResult (res r) (self_after r) (Event c (fst ow) :: trace r) (world_after r)
  end.

(** Programs that let every library exception through: when a call raises,
    the program raises the same exception and calls nothing more. *)
Inductive propagating {R} : prog R -> Prop :=
| propagating_return r self : propagating (Return r self)
| propagating_throw e self : propagating (Throw e self)
| propagating_call X (c : call X) k :
    (forall e, exists self, k (Raise e) = Throw e self) ->
    (forall x, propagating (k (Ok x))) ->
    propagating (Call c k).

(** Programs that never assign an attribute of [self]. *)
Inductive keeps_self {R} (s : MPT) : prog R -> Prop :=
| keeps_return r : keeps_self s (Return r s)
| keeps_throw e : keeps_self s (Throw e s)
| keeps_call X (c : call X) k :
    (forall o, keeps_self s (k o)) -> keeps_self s (Call c k).

(** The calls of inference: tokenizer and model used, nothing loaded. *)
Definition is_inference {X} (c : call X) : bool :=
  match c with
  | tokenizer_encode _ _ _ => true
  | tensor_to _ _ => true
  | model_generate _ _ _ _ _ => true
  | tokenizer_decode _ _ _ => true
  | _ => false
  end.

Inductive inference_only {R} : prog R -> Prop :=
| inference_return r self : inference_only (Return r self)
| inference_throw e self : inference_only (Throw e self)
| inference_call X (c : call X) k :
    is_inference c = true ->
    (forall o, inference_only (k o)) -> inference_only (Call c k).

(* ===================================================================== *)
(** * A small library to run the class against                             *)
(* ===================================================================== *)

(** A world with a file system (directory to file names) and the state of
    the sampler's random number generator. *)
Record world : Type := {
  files : gmap string (list string);
  rng : Z
}.

Definition has_file (w : world) (dir file : string) : bool :=
  match files w !! dir with
  | Some names => bool_decide (file ∈ names)
  | None => false
  end.

Definition missing (file : string) : exn :=
  LibraryError "OSError" file.

(** [torch.manual_seed]. *)
Definition manual_seed (s : Z) (w : world) : world :=
  {| files := files w; rng := s mod 2147483648 |}.

Definition next_rng (g : Z) : Z := (g * 1103515245 + 12345) mod 2147483648.

(** A lower-case letter drawn from the generator state. *)
Definition sample_token (g : Z) : Z := 97 + (g / 65536) mod 26.

(** One token per character. *)
Definition char_encode (s : string) : list Z :=
  (fun a => Z.of_nat (nat_of_ascii a)) <$> list_ascii_of_string s.

Definition char_decode (ids : list Z) : string :=
  string_of_list_ascii ((fun z => ascii_of_nat (Z.to_nat z)) <$> ids).

(** What the model adds to a sequence: the sequence once more and one more
    token, cut at [max_new_tokens]. *)
Definition continuation (row : list Z) (token : Z) (max_new_tokens : Z) : list Z :=
  take (Z.to_nat max_new_tokens) (row ++ [token]).

(** The library.  Loading needs the files to be there.  [generate] wants a
    positive integer for [max_new_tokens] and raises otherwise; the token it
    adds last is a sampled letter under [do_sample], which advances the
    generator, and the letter [a] otherwise. *)
Definition toy_lib : handler world :=
  fun X c w =>
    match c in call X return outcome X * world with
    | AutoTokenizer_from_pretrained path _ =>
        if has_file w path "tokenizer.json"
        then (Ok (TokenizerObj 1), w) else (Raise (missing "tokenizer.json"), w)
    | AutoConfig_from_pretrained path _ =>
        if has_file w path "config.json"
        then (Ok (ConfigObj 1), w) else (Raise (missing "config.json"), w)
    | AutoModelForCausalLM_from_pretrained path _ _ _ =>
        if has_file w path "pytorch_model.bin"
        then (Ok (ModelObj 1), w) else (Raise (missing "pytorch_model.bin"), w)
    | model_to m _ => (Ok m, w)
    | model_eval m => (Ok m, w)
    | tokenizer_encode _ text _ => (Ok [char_encode text], w)
    | tensor_to x _ => (Ok x, w)
    | model_generate _ inputs do_sample _ max_new_tokens =>
        match max_new_tokens with
        | PyInt n =>
            if (0 <? n)%Z
            then
              if do_sample
              then (Ok ((fun row => row ++ continuation row (sample_token (rng w)) n)
                          <$> inputs),
                    {| files := files w; rng := next_rng (rng w) |})
              else (Ok ((fun row => row ++ continuation row 97 n) <$> inputs), w)
            else (Raise (LibraryError "ValueError" "max_new_tokens"), w)
        | _ => (Raise (LibraryError "TypeError" "max_new_tokens"), w)
        end
    | tokenizer_decode _ ids _ => (Ok (char_decode ids), w)
    end.

Definition snapshot_location : string := "mpt-7b".

(** A complete bundle, and one whose weights are missing. *)
Definition complete_bundle : world :=
  {| files := {[ snapshot_location :=
                   ["tokenizer.json"; "config.json"; "pytorch_model.bin"] ]};
     rng := 42 |}.

Definition bundle_without_weights : world :=
  {| files := {[ snapshot_location := ["tokenizer.json"; "config.json"] ]};
     rng := 42 |}.

Definition snapshot_context : PythonModelContext :=
  {| artifacts := {[ "snapshot" := snapshot_location ]} |}.

(** [pd.DataFrame({"prompt": ["What is machine learning?"]})]. *)
Definition input_example : gmap string (list string) :=
  {[ "prompt" := ["What is machine learning?"] ]}.

(** The adapter after a successful [load_context] against [toy_lib]. *)
Definition loaded : MPT :=
  {| tokenizer := Some (TokenizerObj 1); model := Some (ModelObj 1) |}.

(** What the example run returns. *)
Definition example_candidate : string :=
  _build_prompt "What is machine learning?" +:+ "a".

(* ===================================================================== *)
(** * Vocabulary of the statements                                         *)
(* ===================================================================== *)

(** A log entry of a run that went through: the call did not raise, and a
    call for a batch of sequences ([encode], [generate]) got at least one. *)
Definition ev_fine (ev : event) : bool :=
  match ev with
  | Event c o =>
      match c in call X return outcome X -> bool with
      | tokenizer_encode _ _ _ =>
          fun o => match o with Ok (_ :: _) => true | _ => false end
      | model_generate _ _ _ _ _ =>
          fun o => match o with Ok (_ :: _) => true | _ => false end
      | _ => fun o => is_ok o
      end o
  end.

(** No parameters supplied, or the key absent from those supplied. *)
Definition absent (params : option (gmap string pyval)) (key : string) : Prop :=
  match params with
  | None => True
  | Some d => d !! key = None
  end.

(** [params={"temperature": 0.6}], the call the notebook shows. *)
Definition notebook_params : option (gmap string pyval) :=
  Some {[ "temperature" := PyFloat 0.6 ]}.

(** A request the library refuses. *)
Definition zero_tokens : option (gmap string pyval) :=
  Some {[ "max_tokens" := PyInt 0 ]}.


(** The notebook's scenario against [toy_lib]: the model is loaded from the
    complete bundle and asked the example question, without parameters. *)
Definition example_run : run_result PredictionResult world :=
  run toy_lib
      (load_then_predict snapshot_context input_example None new_instance)
      complete_bundle.

(** Loading from the bundle whose weights are missing. *)
Definition failed_load : run_result unit world :=
  run toy_lib (load_context snapshot_context new_instance) bundle_without_weights.

(** The notebook's call: the example question with [notebook_params]. *)
Definition notebook_call : run_result PredictionResult world :=
  run toy_lib (predict snapshot_context input_example notebook_params loaded)
      complete_bundle.

(** The arguments [generate] gets in [notebook_call]. *)
Definition notebook_generate_args : generate_args :=
  GenerateArgs [char_encode (_build_prompt "What is machine learning?")]
               true (PyFloat 0.6) (PyInt 1000).

(** A call the library refuses: [max_tokens] is 0. *)
Definition refused_call : run_result PredictionResult world :=
  run toy_lib (predict snapshot_context input_example zero_tokens loaded)
      complete_bundle.

(** Two calls in a row with the same input, the generator not seeded again
    in between. *)
Definition first_sample : run_result PredictionResult world :=
  run toy_lib (predict snapshot_context input_example None loaded)
      complete_bundle.

Definition second_sample : run_result PredictionResult world :=
  run toy_lib
      (predict snapshot_context input_example None (self_after first_sample))
      (world_after first_sample).

(* ===================================================================== *)
(** * Reading the call log                                                 *)
(* ===================================================================== *)

(** The tokenizer a log entry brought: the answer of the tokenizer's
    loading routine. *)
Definition tokenizer_of (ev : event) : option Tokenizer :=
  match ev with
  | Event c o =>
      match c in call X return outcome X -> option Tokenizer with
      | AutoTokenizer_from_pretrained _ _ =>
          fun o => match o with Ok t => Some t | Raise _ => None end
      | _ => fun _ => None
      end o
  end.

(** The model a log entry brought: the answer of the model's loading
    routine (not of [model.to] or [model.eval], whose results the class
    drops). *)
Definition model_of (ev : event) : option Model :=
  match ev with
  | Event c o =>
      match c in call X return outcome X -> option Model with
      | AutoModelForCausalLM_from_pretrained _ _ _ _ =>
          fun o => match o with Ok m => Some m | Raise _ => None end
      | _ => fun _ => None
      end o
  end.

Definition loaded_tokenizer (tr : list event) : option Tokenizer :=
  head (omap tokenizer_of tr).

Definition loaded_model (tr : list event) : option Model :=
  head (omap model_of tr).

Definition ev_is_inference (ev : event) : bool :=
  match ev with Event c _ => is_inference c end.

(** The call of a log entry did not raise. *)
Definition ev_answered (ev : event) : bool :=
  match ev with Event _ o => is_ok o end.

(** [params[key]] if there is such an entry. *)
Definition param_lookup (params : option (gmap string pyval)) (key : string)
  : option pyval :=
  match params with
  | Some d => d !! key
  | None => None
  end.

(** A library like [toy_lib] that cannot place a model on a device. *)
Definition no_device_lib : handler world :=
  fun X c w =>
    match c in call X return outcome X * world with
    | model_to _ _ => (Raise (LibraryError "RuntimeError" "device"), w)
    | c' => toy_lib _ c' w
    end.

(** A context whose artifacts lack the "snapshot" entry. *)
Definition empty_context : PythonModelContext := {| artifacts := ∅ |}.

(** An adapter loaded earlier, from another bundle. *)
Definition loaded_before : MPT :=
  {| tokenizer := Some (TokenizerObj 7); model := Some (ModelObj 7) |}.

(** Parameters with an entry the class does not know and a temperature
    that is no number. *)
Definition odd_params : option (gmap string pyval) :=
  Some {[ "temperature" := PyStr "hot"; "top_k" := PyInt 5 ]}.

(** A call with [odd_params], and the arguments [generate] then gets. *)
Definition odd_call : run_result PredictionResult world :=
  run toy_lib (predict snapshot_context input_example odd_params loaded)
      complete_bundle.

Definition odd_generate_args : generate_args :=
  GenerateArgs [char_encode (_build_prompt "What is machine learning?")]
               true (PyStr "hot") (PyInt 1000).

(* ===================================================================== *)
(** * The notebook cell that logs the model                                *)
(* ===================================================================== *)

(** [c in s] for a character [c]. *)
Fixpoint mentions (c : ascii) (s : string) : bool :=
  match s with
  | EmptyString => false
  | String a rest => Ascii.eqb a c || mentions c rest
  end.

(** [s.split(sep)] for a separator of one character: the pieces between
    the separators, at least one piece. *)
Fixpoint split (sep : ascii) (s : string) : list string :=
  match s with
  | EmptyString => [EmptyString]
  | String a rest =>
      if Ascii.eqb a sep then EmptyString :: split sep rest
      else match split sep rest with
           | piece :: pieces => String a piece :: pieces
           | [] => [String a EmptyString]
           end
  end.

(** [torch_version = torch.__version__.split("+")[0]]. *)
Definition torch_version (torch___version__ : string) : outcome string :=
  match split "+" torch___version__ !! 0 with
  | Some piece => Ok piece
  | None => Raise IndexError
  end.

(** The [pip_requirements] list handed to [mlflow.pyfunc.log_model]. *)
Definition pip_requirements
    (torch___version__ transformers___version__ accelerate___version__ : string)
  : outcome (list string) :=
  match torch_version torch___version__ with
  | Ok torch_version =>
      Ok [ "torch==" +:+ torch_version;
           "transformers==" +:+ transformers___version__;
           "accelerate==" +:+ accelerate___version__;
           "einops";
           "sentencepiece" ]
  | Raise e => Raise e
  end.

(* ===================================================================== *)
(** * The py-cache-key action                                              *)
(* ===================================================================== *)

Module CacheKey.

Definition newline : ascii := "010"%char.

(** The day [date -u] reports. *)
Record date : Type := {
  year : N;
  month : N;
  day : N
}.

(** A day of a four-digit year. *)
Definition valid_date (d : date) : Prop :=
  (1000 <= year d <= 9999 /\ 1 <= month d <= 12 /\ 1 <= day d <= 31)%N.

(** The last decimal digit of [n]. *)
Definition digit (n : N) : ascii := ascii_of_N (48 + n mod 10).

Definition two_digits (n : N) : string :=
  String (digit (n / 10)) (String (digit n) EmptyString).

(** [date "+%Y%m%d"] for a four-digit year: year, month and day of the
    month, the last two with a leading zero where needed. *)
Definition format_Ymd (d : date) : string :=
  String (digit (year d / 1000)) (String (digit (year d / 100))
    (two_digits (year d)))
  +:+ two_digits (month d) +:+ two_digits (day d).

(** [cut -d<delim> -f2] on one line: the second field; a line without the
    delimiter is passed on whole. *)
Definition cut_f2 (delim : ascii) (line : string) : string :=
  match split delim line with
  | _ :: field2 :: _ => field2
  | _ => line
  end.

(** The lines of a text: a newline ends a line, a last line may lack it. *)
Definition lines (text : string) : list string :=
  match text with
  | EmptyString => []
  | _ =>
      let pieces := split newline text in
      match last pieces with
      | Some EmptyString => removelast pieces
      | _ => pieces
      end
  end.

Fixpoint unlines (ls : list string) : string :=
  match ls with
  | [] => EmptyString
  | l :: rest => l +:+ String newline (unlines rest)
  end.

(** [$(...)] drops the newlines at the end of what the command printed. *)
Fixpoint strip_trailing_newlines (s : string) : string :=
  match s with
  | EmptyString => EmptyString
  | String a rest =>
      match strip_trailing_newlines rest with
      | EmptyString => if Ascii.eqb a newline then EmptyString
                       else String a EmptyString
      | stripped => String a stripped
      end
  end.

(** What the step reads: the runner's environment, what [python --version]
    prints, the day, and the file [$GITHUB_OUTPUT] as it is. *)
Record runner : Type := {
  ImageOS : string;
  ImageVersion : string;
  REQUIREMENTS_HASH : string;
  python_version_stdout : string;
  utc_today : date;
  GITHUB_OUTPUT : string
}.

(** [RUNNER_IMAGE="$ImageOS-$ImageVersion"]. *)
Definition RUNNER_IMAGE (r : runner) : string :=
  ImageOS r +:+ "-" +:+ ImageVersion r.

(** [PYTHON_VERSION="$(python --version | cut -d' ' -f2)"]. *)
Definition PYTHON_VERSION (r : runner) : string :=
  strip_trailing_newlines
    (unlines (cut_f2 " " <$> lines (python_version_stdout r))).

(** [DATE=$(date -u "+%Y%m%d")]. *)
Definition DATE (r : runner) : string :=
  strip_trailing_newlines (format_Ymd (utc_today r) +:+ String newline EmptyString).

(** [N=1]. *)
Definition N : string := "1".

(** ["$RUNNER_IMAGE-$PYTHON_VERSION-$DATE-$REQUIREMENTS_HASH-$N"]. *)
Definition cache_key (r : runner) : string :=
  RUNNER_IMAGE r +:+ "-" +:+ PYTHON_VERSION r +:+ "-" +:+ DATE r +:+ "-" +:+
  REQUIREMENTS_HASH r +:+ "-" +:+ N.

(** How the commands of the step ended: the exit status of
    [python --version], of [cut] and of [date]. *)
Record exit_statuses : Type := {
  python_exit : Z;
  cut_exit : Z;
  date_exit : Z
}.

(** Under [pipefail] a pipeline ends with the status of its last command
    that failed, and with 0 if none did. *)
Definition pipeline_status (python cut : Z) : Z :=
  if (cut =? 0)%Z then python else cut.

(** The step as the runner runs it for [shell: bash], that is under
    [bash -e -o pipefail]: an assignment whose command substitution fails
    ends the script there with that status, so nothing is appended; else
    [echo "value=..." >> $GITHUB_OUTPUT] appends the line.  The result is
    the exit status of the step and the file afterwards. *)
Definition cache_key_step (r : runner) (s : exit_statuses) : Z * string :=
  let python_version_status := pipeline_status (python_exit s) (cut_exit s) in
  if negb (python_version_status =? 0)%Z
  then (python_version_status, GITHUB_OUTPUT r)
  else if negb (date_exit s =? 0)%Z
  then (date_exit s, GITHUB_OUTPUT r)
  else (0%Z,
        GITHUB_OUTPUT r +:+ "value=" +:+ cache_key r +:+ String newline EmptyString).

Definition commands_succeed (s : exit_statuses) : Prop :=
  python_exit s = 0%Z /\ cut_exit s = 0%Z /\ date_exit s = 0%Z.

Definition all_succeed : exit_statuses :=
  {| python_exit := 0; cut_exit := 0; date_exit := 0 |}.

(** No [python] on the path: the shell reports 127. *)
Definition python_missing : exit_statuses :=
  {| python_exit := 127; cut_exit := 0; date_exit := 0 |}.

(** None of the parts the runner supplies to the key has a dash in it. *)
Definition dash_free (r : runner) : Prop :=
  mentions "-" (ImageOS r) = false /\
  mentions "-" (ImageVersion r) = false /\
  mentions "-" (PYTHON_VERSION r) = false /\
  mentions "-" (REQUIREMENTS_HASH r) = false.

(** A hosted runner on the day the notebook was run. *)
Definition ubuntu_runner : runner :=
  {| ImageOS := "ubuntu22";
     ImageVersion := "20231001.1.0";
     REQUIREMENTS_HASH := "0f3a9c";
     python_version_stdout := "Python 3.8.13" +:+ String newline EmptyString;
     utc_today := {| year := 2023; month := 10; day := 12 |};
     GITHUB_OUTPUT := EmptyString |}.

(** The same runner a day later. *)
Definition ubuntu_runner_next_day : runner :=
  {| ImageOS := ImageOS ubuntu_runner;
     ImageVersion := ImageVersion ubuntu_runner;
     REQUIREMENTS_HASH := REQUIREMENTS_HASH ubuntu_runner;
     python_version_stdout := python_version_stdout ubuntu_runner;
     utc_today := {| year := 2023; month := 10; day := 13 |};
     GITHUB_OUTPUT := GITHUB_OUTPUT ubuntu_runner |}.

End CacheKey.

(* ===================================================================== *)
(** * Vocabulary of the corrected statements                               *)
(* ===================================================================== *)

(** The text an [encode] call was given. *)
Definition encoded_text (ev : event) : option string :=
  match ev with
  | Event c _ =>
      match c with
      | tokenizer_encode _ text _ => Some text
      | _ => None
      end
  end.

Definition encoded_texts (tr : list event) : list string :=
  omap encoded_text tr.

(** The token ids a [decode] call was given. *)
Definition decoded_ids (ev : event) : option (list Z) :=
  match ev with
  | Event c _ =>
      match c with
      | tokenizer_decode _ ids _ => Some ids
      | _ => None
      end
  end.

Definition decoded (tr : list event) : list (list Z) :=
  omap decoded_ids tr.

(** The directory a loading routine was given. *)
Definition path_of (ev : event) : option string :=
  match ev with
  | Event c _ =>
      match c with
      | AutoTokenizer_from_pretrained path _ => Some path
      | AutoConfig_from_pretrained path _ => Some path
      | AutoModelForCausalLM_from_pretrained path _ _ _ => Some path
      | _ => None
      end
  end.

Definition paths (tr : list event) : list string :=
  omap path_of tr.

(** Follows the specification's words, one library call for each step it
    names: Generate "constructs a task-specific prompt template embedding
    the user-supplied instruction text, tokenizes it, invokes the model's
    decoding procedure using the supplied or default parameters, strips the
    prompt tokens from the output, and returns a Prediction Result
    containing the decoded continuation".  For comparison with [predict]. *)
Definition Generate_as_specified (context : PythonModelContext)
    (model_input : gmap string (list string))
    (params : option (gmap string pyval)) : method PredictionResult :=
  column <- getitem model_input "prompt" ;;
  instruction <- column_getitem column 0 ;;
  let prompt := _build_prompt instruction in
  t <- get_tokenizer ;;
  x <- invoke (tokenizer_encode t prompt "pt") ;;
  m <- get_model ;;
  output <- invoke (model_generate m x true
                      (param_or_default params "temperature" (PyFloat 0.1))
                      (param_or_default params "max_tokens" (PyInt 1000))) ;;
  output0 <- tensor_getitem output 0 ;;
  x0 <- tensor_getitem x 0 ;;
  continuation <- invoke (tokenizer_decode t (drop (length x0) output0) true) ;;
  ret {[ "candidates" := [continuation] ]}.

Definition specified_call : run_result PredictionResult world :=
  run toy_lib
      (Generate_as_specified snapshot_context input_example notebook_params loaded)
      complete_bundle.

(** A reload of an adapter loaded earlier, from the bundle whose weights
    are missing, and a call of [predict] afterwards. *)
Definition failed_reload : run_result unit world :=
  run toy_lib (load_context snapshot_context loaded_before) bundle_without_weights.

Definition predict_after_failed_reload : run_result PredictionResult world :=
  run toy_lib
      (predict snapshot_context input_example None (self_after failed_reload))
      (world_after failed_reload).

(** The calls the class makes, with the arguments it passes: the loading
    routines on [context.artifacts["snapshot"]], [model.to("cpu")],
    [model.eval()], and the calls of inference with [return_tensors="pt"],
    [.to("cpu")], [do_sample=True] and [skip_special_tokens=True]. *)
Definition class_call (snapshot : option string) {X} (c : call X) : bool :=
  match c with
  | AutoTokenizer_from_pretrained path padding_side =>
      bool_decide (snapshot = Some path) && bool_decide (padding_side = "left")
  | AutoConfig_from_pretrained path trust_remote_code =>
      bool_decide (snapshot = Some path) && trust_remote_code
  | AutoModelForCausalLM_from_pretrained path _ torch_dtype trust_remote_code =>
      bool_decide (snapshot = Some path) &&
      match torch_dtype with bfloat16 => true | _ => false end &&
      trust_remote_code
  | model_to _ device => bool_decide (device = "cpu")
  | model_eval _ => true
  | tokenizer_encode _ _ return_tensors => bool_decide (return_tensors = "pt")
  | tensor_to _ device => bool_decide (device = "cpu")
  | model_generate _ _ do_sample _ _ => do_sample
  | tokenizer_decode _ _ skip_special_tokens => skip_special_tokens
  end.

(** Programs all of whose calls are among the allowed ones. *)
Inductive calls_only {R} (allowed : forall X, call X -> bool) : prog R -> Prop :=
| calls_only_return r self : calls_only allowed (Return r self)
| calls_only_throw e self : calls_only allowed (Throw e self)
| calls_only_call X (c : call X) k :
    allowed X c = true ->
    (forall o, calls_only allowed (k o)) -> calls_only allowed (Call c k).

(** A library like [toy_lib] for a bundle that ships its own model code:
    with [trust_remote_code=True] that code is run when the model is
    loaded, and here it leaves a file of its own in the bundle. *)
Definition remote_code_lib : handler world :=
  fun X c w =>
    match c in call X return outcome X * world with
    | AutoModelForCausalLM_from_pretrained path config torch_dtype trust_remote_code =>
        let ow := toy_lib _ (AutoModelForCausalLM_from_pretrained
                               path config torch_dtype trust_remote_code) w in
        if trust_remote_code
        then (fst ow,
              {| files := alter (cons "__pycache__") path (files (snd ow));
                 rng := rng (snd ow) |})
        else ow
    | c' => toy_lib _ c' w
    end.

Definition load_with_remote_code : run_result unit world :=
  run remote_code_lib (load_context snapshot_context new_instance) complete_bundle.










(** The text [_build_prompt] puts before and after the instruction. *)
Definition prompt_head : string :=
  "Below is an instruction that describes a task. Write a response that appropriately completes the request.
        ### Instruction:
        ".

Definition prompt_tail : string :=
  "
        ### Response:
        ".

(* ===================================================================== *)
(** * Running: general facts                                               *)
(* ===================================================================== *)

Section Running.
Context {W : Type} (h : handler W).

(** Running [p >>= f] is running [p] and then, if it returned, [f]. *)
Lemma run_bind_prog {A B} (p : prog A) (f : A -> method B) (w : W) :
  run h (bind_prog p f) w =
  match res (run h p w) with
  | Ok a =>
      let r2 := run h (f a (self_after (run h p w))) (world_after (run h p w)) in
      RunResult (res r2) (self_after r2)
                (trace (run h p w) ++ trace r2) (world_after r2)
  | Raise e =>
      RunResult (Raise e) (self_after (run h p w))
                (trace (run h p w)) (world_after (run h p w))
  end.
Proof.
  revert w. induction p as [a s | e s | X c k IH]; intros w; simpl.
  - destruct (run h (f a s) w); reflexivity.
  - reflexivity.
  - rewrite IH. destruct (res (run h (k (h X c w).1) (h X c w).2)); reflexivity.
Qed.

(** A raised library exception is the last entry of the log and is what
    the program raises. *)
Lemma run_propagating {R} (p : prog R) :
  propagating p ->
  forall w tr1 ev tr2 e,
    trace (run h p w) = tr1 ++ ev :: tr2 ->
    ev_error ev = Some e ->
    tr2 = [] /\ res (run h p w) = Raise e.
Proof.
  induction 1 as [r s | e0 s | X c k Hraise Hok IH];
    intros w tr1 ev tr2 e Htr Hev; simpl in Htr.
  - destruct tr1; discriminate.
  - destruct tr1; discriminate.
  - simpl. destruct (h X c w) as [o w1]; simpl in *.
    destruct o as [x | e1].
    + destruct tr1 as [| ev0 tr1]; simpl in Htr.
      * injection Htr as <- _. discriminate.
      * injection Htr as _ Htr. eapply IH; eauto.
    + destruct (Hraise e1) as [s Hk]. rewrite Hk in Htr |- *. simpl in *.
      destruct tr1 as [| ev0 tr1]; simpl in Htr.
      * injection Htr as <- <-. simpl in Hev. injection Hev as ->. auto.
      * injection Htr as _ Htr. destruct tr1; discriminate.
Qed.

(** A program that assigns no attribute leaves [self] as it was. *)
Lemma run_keeps_self {R} (s : MPT) (p : prog R) :
  keeps_self s p -> forall w, self_after (run h p w) = s.
Proof. induction 1; intros w; simpl; auto. Qed.
End Running.

Lemma propagating_bind {A B} (p : prog A) (f : A -> method B) :
  propagating p -> (forall a s, propagating (f a s)) ->
  propagating (bind_prog p f).
Proof.
  induction 1 as [r s | e s | X c k Hraise Hok IH]; intros Hf; simpl; auto.
  - constructor.
  - constructor.
    + intros e. destruct (Hraise e) as [s ->]. simpl. eauto.
    + intros x. apply IH, Hf.
Qed.

Lemma propagating_invoke {X} (c : call X) (s : MPT) : propagating (invoke c s).
Proof. constructor; [eauto | constructor]. Qed.

Lemma keeps_self_bind {A B} (s : MPT) (p : prog A) (f : A -> method B) :
  keeps_self s p -> (forall a, keeps_self s (f a s)) ->
  keeps_self s (bind_prog p f).
Proof.
  induction 1; intros Hf; simpl; auto; constructor; auto.
Qed.

Lemma keeps_self_invoke {X} (c : call X) (s : MPT) : keeps_self s (invoke c s).
Proof. constructor. intros [x | e]; constructor. Qed.

Lemma inference_only_bind {A B} (p : prog A) (f : A -> method B) :
  inference_only p -> (forall a s, inference_only (f a s)) ->
  inference_only (bind_prog p f).
Proof.
  induction 1; intros Hf; simpl; auto; constructor; auto.
Qed.

Lemma inference_only_invoke {X} (c : call X) (s : MPT) :
  is_inference c = true -> inference_only (invoke c s).
Proof. intros Hc. constructor; [exact Hc |]. intros [x | e]; constructor. Qed.

(* ===================================================================== *)
(** * The shape of [predict] and [load_context]                            *)
(* ===================================================================== *)

(** Item and attribute look-ups: they return or raise, call nothing and
    assign nothing. *)
Ltac lookup_cases :=
  repeat match goal with
         | |- context [getitem ?d ?key] => unfold getitem; destruct (d !! key)
         | |- context [column_getitem ?l ?i] =>
             unfold column_getitem; destruct (l !! i)
         | |- context [tensor_getitem ?l ?i] =>
             unfold tensor_getitem; destruct (l !! i)
         | |- context [get_tokenizer ?s] =>
             unfold get_tokenizer; destruct (tokenizer s)
         | |- context [get_model ?s] => unfold get_model; destruct (model s)
         end;
  unfold ret, throw.

Lemma predict_propagating context model_input params self :
  propagating (predict context model_input params self).
Proof.
  unfold predict, bind.
  repeat (apply propagating_bind;
          [ first [ apply propagating_invoke | lookup_cases; constructor ]
          | intros ? ? ]).
  constructor.
Qed.

Lemma load_context_propagating context self :
  propagating (load_context context self).
Proof.
  unfold load_context, bind.
  repeat (apply propagating_bind;
          [ first [ apply propagating_invoke | lookup_cases; constructor ]
          | intros ? ? ]).
  constructor.
Qed.

(** [predict] assigns no attribute of [self]. *)
Lemma predict_keeps_self context model_input params self :
  keeps_self self (predict context model_input params self).
Proof.
  unfold predict, bind.
  repeat (apply keeps_self_bind;
          [ first [ apply keeps_self_invoke | lookup_cases; constructor ]
          | intros ? ]).
  constructor.
Qed.

(** [predict] loads nothing: it only uses the tokenizer and the model. *)
Lemma predict_inference_only context model_input params self :
  inference_only (predict context model_input params self).
Proof.
  unfold predict, bind.
  repeat (apply inference_only_bind;
          [ first [ apply inference_only_invoke; reflexivity
                  | lookup_cases; constructor ]
          | intros ? ? ]).
  constructor.
Qed.

(* ===================================================================== *)
(** * What a program inherits from the library                             *)
(* ===================================================================== *)

Section Frame.
Context {W B : Type} (h : handler W) (view : W -> B).
Hypothesis library_keeps : forall X (c : call X) w, view (snd (h X c w)) = view w.

(** A part of the world no library routine changes is unchanged by every
    program: programs act on the world through the library only. *)
Lemma run_frame {R} (p : prog R) (w : W) :
  view (world_after (run h p w)) = view w.
Proof.
  revert w. induction p as [r s | e s | X c k IH]; intros w; simpl; auto.
  rewrite IH. apply library_keeps.
Qed.
End Frame.

Section Sampler.
Context {W G : Type} (h : handler W) (sampler_state : W -> G).
Hypothesis inference_reads_sampler_only :
  forall X (c : call X) w1 w2,
    is_inference c = true ->
    sampler_state w1 = sampler_state w2 ->
    fst (h X c w1) = fst (h X c w2) /\
    sampler_state (snd (h X c w1)) = sampler_state (snd (h X c w2)).

(** Inference started in two worlds with the same sampler state goes the
    same way. *)
Lemma run_same_sampler {R} (p : prog R) :
  inference_only p ->
  forall w1 w2,
    sampler_state w1 = sampler_state w2 ->
    res (run h p w1) = res (run h p w2) /\
    trace (run h p w1) = trace (run h p w2) /\
    self_after (run h p w1) = self_after (run h p w2) /\
    sampler_state (world_after (run h p w1)) =
      sampler_state (world_after (run h p w2)).
Proof.
  induction 1 as [r s | e s | X c k Hc Hk IH]; intros w1 w2 Hw; simpl; auto.
  destruct (inference_reads_sampler_only X c w1 w2 Hc Hw) as [Ho Hw'].
  rewrite Ho.
  destruct (IH (fst (h X c w2)) _ _ Hw') as (Hres & Htr & Hself & Hrng).
  rewrite Hres, Htr, Hself, Hrng. auto.
Qed.
End Sampler.

(* ===================================================================== *)
(** * Every run of [predict]                                               *)
(* ===================================================================== *)

Arguments _build_prompt : simpl never.
Arguments param_or_default : simpl never.

(** One step of a run whose log is known to be [ev_fine] throughout
    (hypothesis [H]): attributes are set, the library answered, batches
    have a first row. *)
Ltac fine_step h H :=
  simpl in H |- *;
  match goal with
  | Hs : tokenizer ?s = _ |- context [tokenizer ?s] => rewrite Hs in H |- *
  | Hs : model ?s = _ |- context [model ?s] => rewrite Hs in H |- *
  | |- context [h ?X ?c ?w] =>
      destruct (h X c w) as [[?|?] ?]; simpl in H |- *; [| discriminate H]
  | _ : context [match ?a with [] => false | _ :: _ => true end] |- _ =>
      destruct a; simpl in H |- *; [discriminate H |]
  end.

(** One step of an arbitrary run: every look-up may fail and every call
    may raise. *)
Ltac any_step h :=
  simpl in *;
  match goal with
  | |- context [h ?X ?c ?w] => destruct (h X c w) as [[?|?] ?]
  | |- context [match tokenizer ?s with _ => _ end] => destruct (tokenizer s) eqn:?
  | |- context [match model ?s with _ => _ end] => destruct (model s) eqn:?
  | |- context [match ?l !! ?i with _ => _ end] => destruct (l !! i) eqn:?
  | H : context [h ?X ?c ?w] |- _ => destruct (h X c w) as [[?|?] ?]
  | H : context [match tokenizer ?s with _ => _ end] |- _ => destruct (tokenizer s) eqn:?
  | H : context [match model ?s with _ => _ end] |- _ => destruct (model s) eqn:?
  | H : context [match ?l !! ?i with _ => _ end] |- _ => destruct (l !! i) eqn:?
  end.

Ltac split_membership :=
  repeat match goal with
         | H : _ ∈ [] |- _ => apply not_elem_of_nil in H; destruct H
         | H : _ ∈ _ :: _ |- _ => apply elem_of_cons in H; destruct H as [-> | H]
         end.

Ltac unfold_methods :=
  unfold load_then_predict, load_context, predict, bind, getitem,
    column_getitem, tensor_getitem, get_tokenizer, get_model,
    set_tokenizer, set_model, invoke, ret, throw in *.

(** Whatever the library does, [predict] calls [generate] at most once,
    with sampling on and with the parameters as resolved from [params]. *)
Lemma predict_generate_calls {W} (h : handler W) w context model_input params self g :
  g ∈ generate_calls (trace (run h (predict context model_input params self) w)) ->
  ga_do_sample g = true /\
  ga_temperature g = param_or_default params "temperature" (PyFloat 0.1) /\
  ga_max_new_tokens g = param_or_default params "max_tokens" (PyInt 1000) /\
  length (generate_calls (trace (run h (predict context model_input params self) w))) = 1.
Proof.
  unfold_methods. intros Hg.
  repeat any_step h; simpl in *;
    repeat match goal with
           | H : _ ∈ [] |- _ => apply not_elem_of_nil in H; destruct H
           | H : _ ∈ _ :: _ |- _ => apply elem_of_cons in H; destruct H as [-> | H]
           end;
    auto.
Qed.

(** Without [self.model], [predict] raises, whatever the library does. *)
Lemma predict_without_model {W} (h : handler W) w context model_input params self :
  model self = None ->
  is_ok (res (run h (predict context model_input params self) w)) = false.
Proof.
  unfold_methods. intros Hm.
  repeat any_step h; simpl in *; try reflexivity; congruence.
Qed.

(* ===================================================================== *)
(** * The class at work                                                    *)
(* ===================================================================== *)

(** The template, as the f-string lays it out. *)
Example _build_prompt_example :
  _build_prompt "What is machine learning?" =
  "Below is an instruction that describes a task. Write a response that appropriately completes the request.
        ### Instruction:
        What is machine learning?
        ### Response:
        ".
Proof. reflexivity. Qed.

(** Loading the complete bundle assigns both attributes, in five calls. *)
Example load_context_example :
  let r := run toy_lib (load_context snapshot_context new_instance) complete_bundle in
  res r = Ok tt /\ self_after r = loaded /\ length (trace r) = 5.
Proof. vm_compute. auto. Qed.

(** With the weights missing, the third call raises; the tokenizer is
    assigned by then, the model is not. *)
Example failed_load_example :
  res failed_load = Raise (missing "pytorch_model.bin") /\
  self_after failed_load = {| tokenizer := Some (TokenizerObj 1); model := None |} /\
  length (trace failed_load) = 3.
Proof. vm_compute. auto. Qed.

(** The parameters of the notebook's call reach [generate] as given, the
    missing one as its default. *)
Example notebook_call_example :
  generate_calls (trace notebook_call) = [notebook_generate_args].
Proof. vm_compute. reflexivity. Qed.

(* ===================================================================== *)
(** * Strings                                                              *)
(* ===================================================================== *)

Lemma app_cons (a : ascii) (s t : string) : String a s +:+ t = String a (s +:+ t).
Proof. reflexivity. Qed.

Lemma app_assoc (s t u : string) : (s +:+ t) +:+ u = s +:+ (t +:+ u).
Proof. induction s as [| a s IH]; [reflexivity |]. rewrite !app_cons, IH. reflexivity. Qed.

Lemma app_nil_r (s : string) : s +:+ "" = s.
Proof. induction s as [| a s IH]; [reflexivity |]. rewrite app_cons, IH. reflexivity. Qed.

Lemma length_app (s t : string) :
  String.length (s +:+ t) = String.length s + String.length t.
Proof. induction s as [| a s IH]; [reflexivity |]. rewrite app_cons. simpl. rewrite IH. reflexivity. Qed.

Lemma app_inv_tail (s1 s2 t : string) : s1 +:+ t = s2 +:+ t -> s1 = s2.
Proof.
  revert s2. induction s1 as [| a s1 IH]; intros [| b s2] H.
  - reflexivity.
  - exfalso. apply (f_equal String.length) in H.
    rewrite !length_app in H. simpl in H. lia.
  - exfalso. apply (f_equal String.length) in H.
    rewrite !length_app in H. simpl in H. lia.
  - rewrite !app_cons in H. injection H as -> H. f_equal. auto.
Qed.

Lemma mentions_app (c : ascii) (s t : string) :
  mentions c (s +:+ t) = mentions c s || mentions c t.
Proof.
  induction s as [| a s IH]; [reflexivity |].
  rewrite app_cons. simpl. rewrite IH, orb_assoc. reflexivity.
Qed.

(** A text is cut at the first occurrence of a character in one way only. *)
Lemma first_occurrence (c : ascii) (a a' r r' : string) :
  mentions c a = false -> mentions c a' = false ->
  a +:+ String c r = a' +:+ String c r' ->
  a = a' /\ r = r'.
Proof.
  revert a'. induction a as [| x a IH]; intros [| x' a'] Ha Ha' H;
    rewrite ?app_cons in H; simpl in *.
  - injection H as ->. auto.
  - injection H as <- _. rewrite Ascii.eqb_refl in Ha'. discriminate.
  - injection H as -> _. rewrite Ascii.eqb_refl in Ha. discriminate.
  - injection H as -> H.
    apply orb_false_elim in Ha as [_ Ha]. apply orb_false_elim in Ha' as [_ Ha'].
    destruct (IH a' Ha Ha' H) as [-> ->]. auto.
Qed.

Lemma prefix_app (s t : string) : String.prefix s (s +:+ t) = true.
Proof.
  induction s as [| a s IH]; [destruct t; reflexivity |].
  rewrite app_cons. simpl. destruct (ascii_dec a a); [exact IH | congruence].
Qed.

Lemma contains_prefix (needle hay : string) :
  String.prefix needle hay = true -> contains needle hay = true.
Proof. intros H. destruct hay; cbn [contains]; rewrite H; reflexivity. Qed.

Lemma contains_app (needle s t : string) :
  contains needle (s +:+ needle +:+ t) = true.
Proof.
  induction s as [| a s IH].
  - change (contains needle (needle +:+ t) = true).
    apply contains_prefix, prefix_app.
  - rewrite app_cons. simpl. rewrite IH. apply orb_true_r.
Qed.

Lemma contains_here (needle t : string) : contains needle (needle +:+ t) = true.
Proof. apply contains_prefix, prefix_app. Qed.

Lemma contains_app_r (needle s hay : string) :
  contains needle hay = true -> contains needle (s +:+ hay) = true.
Proof.
  intros H. induction s as [| a s IH]; [exact H |].
  rewrite app_cons. simpl. rewrite IH. apply orb_true_r.
Qed.

(** What [params.get(key, dflt) if params else dflt] comes to: the entry
    if there is one, the default otherwise. *)
Lemma param_or_default_lookup params key dflt :
  param_or_default params key dflt = default dflt (param_lookup params key).
Proof.
  unfold param_or_default, param_lookup. destruct params as [d |]; [| reflexivity].
  case_bool_decide as Hd; [| reflexivity].
  subst d. rewrite lookup_empty. reflexivity.
Qed.

(* ===================================================================== *)
(** * Properties of the adapter                                            *)
(* ===================================================================== *)

(** C1, as stated, fails: the bundle is complete, every call of the run went
    through and the prompt is "What is machine learning?", yet the candidate
    contains "### Instruction:".  The model of [toy_lib] continues a prompt
    by repeating it; [predict] removes the tokens of the prompt and returns
    what the model added. *)
Lemma C1_candidate_contains_instruction_key :
  forallb ev_fine (trace example_run) = true /\
  res example_run = Ok {[ "candidates" := [example_candidate] ]} /\
  contains "### Instruction:" example_candidate = true.
Proof. vm_compute. auto. Qed.

(** C1 (amended): Initialize followed by Generate, in a run where no library
    call raises and the tokenizer and the model return at least one
    sequence, makes the eleven calls below and returns
    [{"candidates": [cand]}]: one candidate, the tokenizer's decoding of
    [output[0]] without its first [len(y0)] tokens, [y0] being the tokens of
    the constructed prompt.  Nothing is said of the text the model itself
    puts after the prompt. *)
Theorem C1_load_then_predict_candidates
    {W} (h : handler W) (w : W) context model_input params path p rest :
  artifacts context !! "snapshot" = Some path ->
  model_input !! "prompt" = Some (p :: rest) ->
  forallb ev_fine
    (trace (run h (load_then_predict context model_input params new_instance) w))
    = true ->
  exists t config m m1 m2 x x' out0 outs txt y0 ys cand,
    trace (run h (load_then_predict context model_input params new_instance) w) =
      [ Event (AutoTokenizer_from_pretrained path "left") (Ok t);
        Event (AutoConfig_from_pretrained path true) (Ok config);
        Event (AutoModelForCausalLM_from_pretrained path config bfloat16 true) (Ok m);
        Event (model_to m "cpu") (Ok m1);
        Event (model_eval m) (Ok m2);
        Event (tokenizer_encode t (_build_prompt p) "pt") (Ok x);
        Event (tensor_to x "cpu") (Ok x');
        Event (model_generate m x' true
                 (param_or_default params "temperature" (PyFloat 0.1))
                 (param_or_default params "max_tokens" (PyInt 1000)))
              (Ok (out0 :: outs));
        Event (tokenizer_decode t out0 true) (Ok txt);
        Event (tokenizer_encode t (_build_prompt p) "pt") (Ok (y0 :: ys));
        Event (tokenizer_decode t (drop (length y0) out0) true) (Ok cand) ]
    /\ res (run h (load_then_predict context model_input params new_instance) w)
       = Ok {[ "candidates" := [cand] ]}.
Proof.
  intros Hpath Hp H. unfold_methods. rewrite Hpath, Hp in *.
  repeat fine_step h H.
  eauto 20.
Qed.

Lemma C1_load_then_predict_candidates_witness :
  forallb ev_fine (trace example_run) = true /\
  exists cand, res example_run = Ok {[ "candidates" := [cand] ]}.
Proof.
  split; [vm_compute; reflexivity |].
  destruct (C1_load_then_predict_candidates toy_lib complete_bundle
              snapshot_context input_example None snapshot_location
              "What is machine learning?" [])
    as (t & config & m & m1 & m2 & x & x' & out0 & outs & txt & y0 & ys & cand & _ & Hres);
    [vm_compute; reflexivity | vm_compute; reflexivity | vm_compute; reflexivity |].
  exists cand. exact Hres.
Defined.

(** C2: in every run of [predict], a call to [model.generate] gets
    temperature 0.1 when [params] is absent or has no "temperature", and
    max_new_tokens 1000 when [params] is absent or has no "max_tokens". *)
Theorem C2_missing_parameters_fall_back
    {W} (h : handler W) (w : W) context model_input params self g :
  g ∈ generate_calls (trace (run h (predict context model_input params self) w)) ->
  (absent params "temperature" -> ga_temperature g = PyFloat 0.1) /\
  (absent params "max_tokens" -> ga_max_new_tokens g = PyInt 1000).
Proof.
  intros Hg. apply predict_generate_calls in Hg as (_ & -> & -> & _).
  unfold absent, param_or_default.
  split; intros Habs; destruct params as [d |]; try reflexivity;
    rewrite Habs; simpl; destruct (bool_decide (d = ∅)); reflexivity.
Qed.

Lemma C2_missing_parameters_fall_back_witness :
  notebook_generate_args ∈ generate_calls (trace notebook_call) /\
  absent notebook_params "max_tokens" /\
  ga_max_new_tokens notebook_generate_args = PyInt 1000.
Proof.
  assert (Hin : notebook_generate_args ∈ generate_calls (trace notebook_call))
    by (vm_compute; apply list_elem_of_here).
  assert (Habs : absent notebook_params "max_tokens") by reflexivity.
  split; [exact Hin |]. split; [exact Habs |].
  exact (proj2 (C2_missing_parameters_fall_back toy_lib complete_bundle
                  snapshot_context input_example notebook_params loaded
                  notebook_generate_args Hin) Habs).
Defined.

(** C3, as stated, fails.  Loading a new instance from the bundle whose
    weights are missing raises, and the instance is left partially
    initialized: [self.tokenizer] is assigned.  Reloading an instance that
    was loaded before from that bundle raises too, leaves the new tokenizer
    next to the old model, and [predict] on it returns. *)
Lemma C3_partial_state_after_failed_load :
  res failed_load = Raise (missing "pytorch_model.bin") /\
  self_after failed_load
    = {| tokenizer := Some (TokenizerObj 1); model := None |} /\
  res failed_reload = Raise (missing "pytorch_model.bin") /\
  self_after failed_reload
    = {| tokenizer := Some (TokenizerObj 1); model := Some (ModelObj 7) |} /\
  is_ok (res predict_after_failed_reload) = true.
Proof. vm_compute. auto 10. Qed.

(** C3 (amended): when one of the three loading routines raises during
    [load_context], on any instance, [load_context] raises that exception
    and undoes nothing: [self.model] is what it was before the call and
    [self.tokenizer] is the new tokenizer if that had loaded and what it was
    before otherwise.  On an instance that had no model, as a new one, every
    later [predict] raises, whatever the input and the library. *)
Theorem C3_load_failure_keeps_assignments
    {W} (h : handler W) (w : W) context self ev e :
  ev ∈ trace (run h (load_context context self) w) ->
  is_from_pretrained ev = true ->
  ev_error ev = Some e ->
  res (run h (load_context context self) w) = Raise e /\
  model (self_after (run h (load_context context self) w)) = model self /\
  tokenizer (self_after (run h (load_context context self) w)) =
    match loaded_tokenizer (trace (run h (load_context context self) w)) with
    | Some t => Some t
    | None => tokenizer self
    end /\
  (model self = None ->
   forall W' (h' : handler W') (w' : W') context' model_input params,
     is_ok (res (run h' (predict context' model_input params
                           (self_after (run h (load_context context self) w)))
                     w')) = false).
Proof.
  intros Hev Hload Herr.
  assert (res (run h (load_context context self) w) = Raise e /\
          model (self_after (run h (load_context context self) w)) = model self /\
          tokenizer (self_after (run h (load_context context self) w)) =
            match loaded_tokenizer (trace (run h (load_context context self) w)) with
            | Some t => Some t
            | None => tokenizer self
            end)
    as (Hres & Hmodel & Htok).
  { unfold_methods. unfold loaded_tokenizer.
    repeat any_step h; simpl in *; split_membership;
      simpl in *; try discriminate; repeat split; congruence. }
  split; [exact Hres |]. split; [exact Hmodel |]. split; [exact Htok |].
  intros Hnone W' h' w' context' model_input params.
  apply predict_without_model. rewrite Hmodel. exact Hnone.
Qed.

Lemma C3_load_failure_keeps_assignments_witness :
  res failed_load = Raise (missing "pytorch_model.bin") /\
  model (self_after failed_load) = None /\
  is_ok (res (run toy_lib (predict snapshot_context input_example None
                             (self_after failed_load))
                  complete_bundle)) = false.
Proof.
  destruct (C3_load_failure_keeps_assignments toy_lib bundle_without_weights
              snapshot_context new_instance
              (Event (AutoModelForCausalLM_from_pretrained
                        snapshot_location (ConfigObj 1) bfloat16 true)
                     (Raise (missing "pytorch_model.bin")))
              (missing "pytorch_model.bin"))
    as (Hres & Hmodel & _ & Hpredict).
  - vm_compute. do 2 apply list_elem_of_further. apply list_elem_of_here.
  - reflexivity.
  - reflexivity.
  - split; [exact Hres |]. split; [exact Hmodel |].
    apply Hpredict. reflexivity.
Defined.

(** The template as one text before and one after the instruction. *)
Lemma _build_prompt_layout (instruction : string) :
  _build_prompt instruction = prompt_head +:+ instruction +:+ prompt_tail.
Proof. reflexivity. Qed.


(** C4, as stated, fails: where the specification names four steps with one
    library call each ([specified_call]: tokenize, generate, decode the
    continuation), [predict] makes six calls.  It tokenizes the prompt
    twice and decodes twice, the first time all of [output[0]], prompt
    included, for a text it does not use. *)
Lemma C4_predict_makes_more_calls :
  length (trace specified_call) = 3 /\
  length (trace notebook_call) = 6 /\
  encoded_texts (trace notebook_call)
    = [ _build_prompt "What is machine learning?";
        _build_prompt "What is machine learning?" ] /\
  length (decoded (trace notebook_call)) = 2 /\
  head (decoded (trace notebook_call))
    = Some (char_encode (_build_prompt "What is machine learning?" +:+
                         _build_prompt "What is machine learning?" +:+ "a")) /\
  res notebook_call = res specified_call.
Proof. vm_compute. auto 10. Qed.

(** C4 (amended): on a loaded adapter and an input with a prompt, a run of
    [predict] in which the library answers every call makes exactly these
    six calls, in this order.  It tokenizes the prompt, which is the fixed
    text [prompt_head], the instruction as it is and the fixed text
    [prompt_tail]; moves the tensor; calls [generate] once, with sampling
    on, with [params["temperature"]] or else 0.1 and with
    [params["max_tokens"]] or else 1000; decodes all of [output[0]] (a text
    it drops); tokenizes the prompt a second time for its length; decodes
    [output[0]] without that many leading tokens; and returns that text as
    the one candidate. *)
Theorem C4_predict_steps
    {W} (h : handler W) (w : W) context model_input params self t m p rest :
  tokenizer self = Some t ->
  model self = Some m ->
  model_input !! "prompt" = Some (p :: rest) ->
  forallb ev_fine (trace (run h (predict context model_input params self) w)) = true ->
  let prompt := prompt_head +:+ p +:+ prompt_tail in
  let temperature :=
    match params with
    | Some d => match d !! "temperature" with Some v => v | None => PyFloat 0.1 end
    | None => PyFloat 0.1
    end in
  let max_new_tokens :=
    match params with
    | Some d => match d !! "max_tokens" with Some v => v | None => PyInt 1000 end
    | None => PyInt 1000
    end in
  exists x x' out0 outs txt y0 ys cand,
    trace (run h (predict context model_input params self) w) =
      [ Event (tokenizer_encode t prompt "pt") (Ok x);
        Event (tensor_to x "cpu") (Ok x');
        Event (model_generate m x' true temperature max_new_tokens)
              (Ok (out0 :: outs));
        Event (tokenizer_decode t out0 true) (Ok txt);
        Event (tokenizer_encode t prompt "pt") (Ok (y0 :: ys));
        Event (tokenizer_decode t (drop (length y0) out0) true) (Ok cand) ]
    /\ length (generate_calls
                 (trace (run h (predict context model_input params self) w))) = 1
    /\ res (run h (predict context model_input params self) w)
       = Ok {[ "candidates" := [cand] ]}.
Proof.
  intros Ht Hm Hp H prompt temperature max_new_tokens.
  assert (Hprompt : prompt = _build_prompt p) by reflexivity.
  assert (Htemp : temperature = param_or_default params "temperature" (PyFloat 0.1)).
  { rewrite param_or_default_lookup. subst temperature.
    destruct params as [d |]; [simpl; destruct (d !! "temperature") |]; reflexivity. }
  assert (Hmax : max_new_tokens = param_or_default params "max_tokens" (PyInt 1000)).
  { rewrite param_or_default_lookup. subst max_new_tokens.
    destruct params as [d |]; [simpl; destruct (d !! "max_tokens") |]; reflexivity. }
  rewrite Hprompt, Htemp, Hmax. clear Hprompt Htemp Hmax.
  unfold_methods. rewrite Hp in *.
  repeat fine_step h H.
  eauto 20.
Qed.

Lemma C4_predict_steps_witness :
  forallb ev_fine (trace notebook_call) = true /\
  exists cand, res notebook_call = Ok {[ "candidates" := [cand] ]}.
Proof.
  split; [vm_compute; reflexivity |].
  destruct (C4_predict_steps toy_lib complete_bundle snapshot_context
              input_example notebook_params loaded
              (TokenizerObj 1) (ModelObj 1) "What is machine learning?" [])
    as (x & x' & out0 & outs & txt & y0 & ys & cand & _ & _ & Hres);
    [reflexivity | reflexivity | vm_compute; reflexivity
    | vm_compute; reflexivity |].
  exists cand. exact Hres.
Defined.

(** C5: in every run of [predict], a library call that raises is the last
    call made (nothing is tried again, nothing is called to recover) and
    [predict] raises that very exception (no result is returned). *)
Theorem C5_library_exception_propagates
    {W} (h : handler W) (w : W) context model_input params self tr1 ev tr2 e :
  trace (run h (predict context model_input params self) w) = tr1 ++ ev :: tr2 ->
  ev_error ev = Some e ->
  tr2 = [] /\
  res (run h (predict context model_input params self) w) = Raise e.
Proof.
  apply run_propagating, predict_propagating.
Qed.

Lemma C5_library_exception_propagates_witness :
  length (trace refused_call) = 3 /\
  res refused_call = Raise (LibraryError "ValueError" "max_new_tokens").
Proof.
  split; [reflexivity |].
  refine (proj2 (C5_library_exception_propagates toy_lib complete_bundle
                   snapshot_context input_example zero_tokens loaded
                   (take 2 (trace refused_call))
                   (Event (model_generate (ModelObj 1)
                             [char_encode (_build_prompt "What is machine learning?")]
                             true (PyFloat 0.1) (PyInt 0))
                          (Raise (LibraryError "ValueError" "max_new_tokens")))
                   [] (LibraryError "ValueError" "max_new_tokens") _ _));
    vm_compute; reflexivity.
Defined.

(** [toy_lib] writes nothing to the file system. *)
Lemma toy_lib_keeps_files X (c : call X) (w : world) :
  files (snd (toy_lib X c w)) = files w.
Proof.
  destruct c; simpl; repeat case_match; reflexivity.
Qed.

Lemma calls_only_bind {A B} allowed (p : prog A) (f : A -> method B) :
  calls_only allowed p -> (forall a s, calls_only allowed (f a s)) ->
  calls_only allowed (bind_prog p f).
Proof.
  induction 1; intros Hf; simpl; auto; constructor; auto.
Qed.

Lemma calls_only_invoke allowed {X} (c : call X) (s : MPT) :
  allowed X c = true -> calls_only allowed (invoke c s).
Proof. intros Hc. constructor; [exact Hc |]. intros [x | e]; constructor. Qed.

(** What the allowed calls leave alone, a program that makes no other
    call leaves alone. *)
Lemma run_frame_only {W B R} (h : handler W) (view : W -> B) allowed (p : prog R) :
  (forall X (c : call X) w, allowed X c = true -> view (snd (h X c w)) = view w) ->
  calls_only allowed p ->
  forall w, view (world_after (run h p w)) = view w.
Proof.
  intros Hlib. induction 1 as [r s | e s | X c k Hc Hk IH]; intros w; simpl; auto.
  rewrite IH. apply Hlib, Hc.
Qed.

(** [load_context] makes the calls of [class_call] and no other. *)
Lemma load_context_class_calls context self :
  calls_only (@class_call (artifacts context !! "snapshot"))
             (load_context context self).
Proof.
  unfold_methods.
  destruct (artifacts context !! "snapshot") as [path |]; [| constructor].
  simpl.
  repeat first
    [ apply calls_only_return
    | apply calls_only_throw
    | apply calls_only_call;
      [ simpl; rewrite ?bool_decide_eq_true_2 by reflexivity; reflexivity
      | intros [? | ?]; simpl ] ].
Qed.

Lemma predict_class_calls snapshot context model_input params self :
  calls_only (@class_call snapshot) (predict context model_input params self).
Proof.
  unfold predict, bind.
  repeat (apply calls_only_bind;
          [ first [ apply calls_only_invoke; reflexivity
                  | lookup_cases; constructor ]
          | intros ? ? ]).
  constructor.
Qed.

(** C6, as stated, fails: the class loads config and model with
    [trust_remote_code=True], so code shipped in the bundle runs during
    [load_context], and what that code does to the bundle is done.  With
    [remote_code_lib] loading succeeds and the directory has one more
    file. *)
Lemma C6_bundle_changed_by_remote_code :
  res load_with_remote_code = Ok tt /\
  files complete_bundle !! snapshot_location
    = Some ["tokenizer.json"; "config.json"; "pytorch_model.bin"] /\
  files (world_after load_with_remote_code) !! snapshot_location
    = Some ["__pycache__"; "tokenizer.json"; "config.json"; "pytorch_model.bin"].
Proof. vm_compute. auto. Qed.

(** C6 (amended): the class has no file operation of its own and reaches
    the bundle only through the library: [load_context] hands a directory
    to the loading routines only, always [context.artifacts["snapshot"]],
    all three when the library answers, and [predict] hands a directory to
    no call.  So when the calls the class makes ([class_call], with the
    arguments it passes) leave the bundle as it is, so do [load_context]
    and [predict]. *)
Theorem C6_bundle_changed_by_library_only
    {W B} (h : handler W) (bundle : W -> B) (w : W)
    context model_input params self :
  (forall X (c : call X) w',
     class_call (artifacts context !! "snapshot") c = true ->
     bundle (snd (h X c w')) = bundle w') ->
  bundle (world_after (run h (load_context context self) w)) = bundle w /\
  bundle (world_after (run h (predict context model_input params self) w))
    = bundle w /\
  (forall path,
     path ∈ paths (trace (run h (load_context context self) w)) ->
     artifacts context !! "snapshot" = Some path) /\
  (forall path,
     artifacts context !! "snapshot" = Some path ->
     forallb ev_answered (trace (run h (load_context context self) w)) = true ->
     paths (trace (run h (load_context context self) w)) = [path; path; path]) /\
  paths (trace (run h (predict context model_input params self) w)) = [].
Proof.
  intros Hlib. split; [| split; [| split; [| split]]].
  - apply (run_frame_only h bundle _ _ Hlib), load_context_class_calls.
  - apply (run_frame_only h bundle _ _ Hlib), predict_class_calls.
  - clear Hlib. unfold_methods. unfold paths. intros path Hpath.
    repeat any_step h; simpl in *; split_membership; congruence.
  - clear Hlib. unfold_methods. unfold paths. intros path Hpath Hans.
    rewrite Hpath in *.
    repeat any_step h; simpl in *; try discriminate Hans; reflexivity.
  - clear Hlib. unfold_methods. unfold paths.
    repeat any_step h; reflexivity.
Qed.

Lemma C6_bundle_changed_by_library_only_witness :
  files (world_after
           (run toy_lib (load_context snapshot_context new_instance) complete_bundle))
    = files complete_bundle /\
  files (world_after notebook_call) = files complete_bundle.
Proof.
  split.
  - apply (C6_bundle_changed_by_library_only toy_lib files complete_bundle
             snapshot_context input_example notebook_params new_instance).
    intros X c w' _. apply toy_lib_keeps_files.
  - apply (C6_bundle_changed_by_library_only toy_lib files complete_bundle
             snapshot_context input_example notebook_params loaded).
    intros X c w' _. apply toy_lib_keeps_files.
Defined.

(** Inference with [toy_lib] reads and writes nothing of the world but the
    generator state. *)
Lemma toy_lib_reads_rng_only X (c : call X) (w1 w2 : world) :
  is_inference c = true ->
  rng w1 = rng w2 ->
  fst (toy_lib X c w1) = fst (toy_lib X c w2) /\
  rng (snd (toy_lib X c w1)) = rng (snd (toy_lib X c w2)).
Proof.
  intros Hc Hrng. destruct c; try discriminate Hc; simpl;
    repeat case_match; simpl; rewrite ?Hrng; auto.
Qed.

(** C7: let the library's answers to the calls of inference depend on the
    world through the sampler state only, and let seeding fix that state.
    Then two calls of [predict] in a row with the same input, each made
    right after seeding with the same seed, return the same result and make
    the same calls with the same answers.  Every [generate] call has
    [do_sample=True]; so without seeding again the two calls may differ, as
    they do for [toy_lib]. *)
Theorem C7_same_seed_same_output
    {W G} (h : handler W) (sampler_state : W -> G) (seed : Z -> W -> W) :
  (forall X (c : call X) w1 w2,
     is_inference c = true ->
     sampler_state w1 = sampler_state w2 ->
     fst (h X c w1) = fst (h X c w2) /\
     sampler_state (snd (h X c w1)) = sampler_state (snd (h X c w2))) ->
  (forall s w1 w2, sampler_state (seed s w1) = sampler_state (seed s w2)) ->
  forall s w context model_input params self,
    let first := run h (predict context model_input params self) (seed s w) in
    let second :=
      run h (predict context model_input params (self_after first))
          (seed s (world_after first)) in
    (res second = res first /\ trace second = trace first) /\
    (forall g, g ∈ generate_calls (trace first) -> ga_do_sample g = true) /\
    (exists a b,
        res first_sample = Ok {[ "candidates" := [a] ]} /\
        res second_sample = Ok {[ "candidates" := [b] ]} /\
        a <> b).
Proof.
  intros Hdep Hseed s w context model_input params self first second.
  split; [| split].
  - assert (Hself : self_after first = self)
      by apply run_keeps_self, predict_keeps_self.
    subst second. rewrite Hself.
    destruct (run_same_sampler h sampler_state Hdep
                (predict context model_input params self)
                (predict_inference_only _ _ _ _)
                (seed s (world_after first)) (seed s w) (Hseed _ _ _))
      as (Hres & Htr & _).
    auto.
  - intros g Hg. apply predict_generate_calls in Hg. tauto.
  - exists example_candidate,
      (_build_prompt "What is machine learning?" +:+ "x").
    split; [vm_compute; reflexivity |].
    split; [vm_compute; reflexivity |].
    intros Heq. vm_compute in Heq. discriminate Heq.
Qed.

Lemma C7_same_seed_same_output_witness :
  res (run toy_lib
         (predict snapshot_context input_example None
            (self_after (run toy_lib
                           (predict snapshot_context input_example None loaded)
                           (manual_seed 7 complete_bundle))))
         (manual_seed 7
            (world_after (run toy_lib
                            (predict snapshot_context input_example None loaded)
                            (manual_seed 7 complete_bundle)))))
  = res (run toy_lib (predict snapshot_context input_example None loaded)
           (manual_seed 7 complete_bundle)).
Proof.
  exact (proj1 (proj1 (C7_same_seed_same_output toy_lib rng manual_seed
                         toy_lib_reads_rng_only
                         (fun s w1 w2 => eq_refl)
                         7%Z complete_bundle snapshot_context input_example
                         None loaded))).
Defined.





(** C10: when the input has no column "prompt", or the column has no entry,
    [predict] raises a [KeyError] before it calls the library at all. *)
Theorem C10_missing_prompt_raises
    {W} (h : handler W) (w : W) context model_input params self :
  model_input !! "prompt" = None \/ model_input !! "prompt" = Some [] ->
  exists key,
    res (run h (predict context model_input params self) w) = Raise (KeyError key) /\
    trace (run h (predict context model_input params self) w) = [].
Proof.
  intros [Hp | Hp]; unfold predict, bind, getitem; rewrite Hp; simpl; eauto.
Qed.

Lemma C10_missing_prompt_raises_witness :
  exists key,
    res (run toy_lib (predict snapshot_context ∅ None loaded) complete_bundle)
      = Raise (KeyError key) /\
    trace (run toy_lib (predict snapshot_context ∅ None loaded) complete_bundle) = [].
Proof.
  apply (C10_missing_prompt_raises toy_lib complete_bundle snapshot_context
           ∅ None loaded).
  left. reflexivity.
Defined.

(* ===================================================================== *)
(** * Further properties of [load_context]                                 *)
(* ===================================================================== *)

(** X1: without an entry "snapshot" in [context.artifacts], [load_context]
    raises [KeyError("snapshot")] before it calls the library, and leaves the
    instance as it was. *)
Theorem X1_load_context_without_snapshot
    {W} (h : handler W) (w : W) context self :
  artifacts context !! "snapshot" = None ->
  res (run h (load_context context self) w) = Raise (KeyError "snapshot") /\
  trace (run h (load_context context self) w) = [] /\
  self_after (run h (load_context context self) w) = self /\
  world_after (run h (load_context context self) w) = w.
Proof.
  intros Hsnap. unfold load_context, bind, getitem. rewrite Hsnap.
  simpl. auto.
Qed.

Lemma X1_load_context_without_snapshot_witness :
  res (run toy_lib (load_context empty_context loaded_before) complete_bundle)
    = Raise (KeyError "snapshot") /\
  self_after (run toy_lib (load_context empty_context loaded_before) complete_bundle)
    = loaded_before.
Proof.
  destruct (X1_load_context_without_snapshot toy_lib complete_bundle
              empty_context loaded_before) as (Hres & _ & Hself & _);
    [reflexivity |].
  split; [exact Hres | exact Hself].
Defined.

(** X2: a run of [load_context] in which the library answers every call
    makes exactly five calls: the tokenizer, the config and the model are
    loaded from the one directory [context.artifacts["snapshot"]], with
    [padding_side="left"], [trust_remote_code=True], the config just loaded
    and [torch.bfloat16]; the model is moved to "cpu" and put in eval mode.
    It returns [None], and the instance then holds the tokenizer and the
    model the loading routines returned, whatever it held before. *)
Theorem X2_load_context_steps
    {W} (h : handler W) (w : W) context self path :
  artifacts context !! "snapshot" = Some path ->
  forallb ev_fine (trace (run h (load_context context self) w)) = true ->
  exists t config m m1 m2,
    trace (run h (load_context context self) w) =
      [ Event (AutoTokenizer_from_pretrained path "left") (Ok t);
        Event (AutoConfig_from_pretrained path true) (Ok config);
        Event (AutoModelForCausalLM_from_pretrained path config bfloat16 true) (Ok m);
        Event (model_to m "cpu") (Ok m1);
        Event (model_eval m) (Ok m2) ] /\
    res (run h (load_context context self) w) = Ok tt /\
    self_after (run h (load_context context self) w)
      = {| tokenizer := Some t; model := Some m |}.
Proof.
  intros Hpath H. unfold_methods. rewrite Hpath in *.
  repeat fine_step h H.
  eauto 10.
Qed.

Lemma X2_load_context_steps_witness :
  res (run toy_lib (load_context snapshot_context loaded_before) complete_bundle)
    = Ok tt /\
  self_after (run toy_lib (load_context snapshot_context loaded_before) complete_bundle)
    = loaded.
Proof.
  destruct (X2_load_context_steps toy_lib complete_bundle snapshot_context
              loaded_before snapshot_location)
    as (t & config & m & m1 & m2 & _ & Hres & _);
    [vm_compute; reflexivity | vm_compute; reflexivity |].
  split; [exact Hres | vm_compute; reflexivity].
Defined.

(** X3: in every run of [load_context], a library call that raises is the
    last call made and [load_context] raises that very exception: nothing
    is caught, tried again or cleaned up. *)
Theorem X3_load_context_propagates
    {W} (h : handler W) (w : W) context self tr1 ev tr2 e :
  trace (run h (load_context context self) w) = tr1 ++ ev :: tr2 ->
  ev_error ev = Some e ->
  tr2 = [] /\
  res (run h (load_context context self) w) = Raise e.
Proof.
  apply run_propagating, load_context_propagating.
Qed.

Lemma X3_load_context_propagates_witness :
  length (trace failed_load) = 3 /\
  res failed_load = Raise (missing "pytorch_model.bin").
Proof.
  split; [reflexivity |].
  refine (proj2 (X3_load_context_propagates toy_lib bundle_without_weights
                   snapshot_context new_instance
                   (take 2 (trace failed_load))
                   (Event (AutoModelForCausalLM_from_pretrained
                             snapshot_location (ConfigObj 1) bfloat16 true)
                          (Raise (missing "pytorch_model.bin")))
                   [] (missing "pytorch_model.bin") _ _));
    vm_compute; reflexivity.
Defined.

(** X4: [load_context] is not atomic.  In every run, whether it returns or
    raises, [self.tokenizer] is replaced exactly when the tokenizer's loading
    routine answered and [self.model] exactly when the model's did; an
    attribute whose routine did not answer keeps its earlier value.  So a
    reload that fails at the config or the weights leaves the new tokenizer
    next to the old model, and one that fails at [model.to] or [model.eval]
    leaves both new objects assigned. *)
Theorem X4_load_context_assigns_what_was_loaded
    {W} (h : handler W) (w : W) context self :
  tokenizer (self_after (run h (load_context context self) w)) =
    match loaded_tokenizer (trace (run h (load_context context self) w)) with
    | Some t => Some t
    | None => tokenizer self
    end /\
  model (self_after (run h (load_context context self) w)) =
    match loaded_model (trace (run h (load_context context self) w)) with
    | Some m => Some m
    | None => model self
    end.
Proof.
  unfold_methods. unfold loaded_tokenizer, loaded_model.
  repeat any_step h; simpl in *; auto; congruence.
Qed.

(* ===================================================================== *)
(** * Further properties of [predict]                                      *)
(* ===================================================================== *)

(** A reload that fails at the weights: the new tokenizer stands next to
    the model loaded before. *)
Example failed_reload_example :
  let r := run toy_lib (load_context snapshot_context loaded_before)
               bundle_without_weights in
  res r = Raise (missing "pytorch_model.bin") /\
  self_after r = {| tokenizer := Some (TokenizerObj 1); model := Some (ModelObj 7) |}.
Proof. vm_compute. auto. Qed.

(** A load that fails at [model.to]: [load_context] raises, and the
    instance is fully assigned and answers [predict]. *)
Example no_device_example :
  let r := run no_device_lib (load_context snapshot_context new_instance)
               complete_bundle in
  res r = Raise (LibraryError "RuntimeError" "device") /\
  self_after r = loaded /\
  is_ok (res (run no_device_lib
                (predict snapshot_context input_example None (self_after r))
                (world_after r))) = true.
Proof. vm_compute. auto. Qed.

(** X5: [predict] assigns no attribute: after every run, returned or
    raised, the instance is what it was before the call. *)
Theorem X5_predict_keeps_self
    {W} (h : handler W) (w : W) context model_input params self :
  self_after (run h (predict context model_input params self) w) = self.
Proof.
  apply run_keeps_self.
  apply predict_keeps_self.
Qed.

(** X6: on an instance whose [load_context] never assigned a tokenizer,
    [predict] with a prompt raises [AttributeError] for [tokenizer] and
    calls nothing. *)
Theorem X6_predict_without_tokenizer
    {W} (h : handler W) (w : W) context model_input params self p rest :
  model_input !! "prompt" = Some (p :: rest) ->
  tokenizer self = None ->
  res (run h (predict context model_input params self) w)
    = Raise (AttributeError "tokenizer") /\
  trace (run h (predict context model_input params self) w) = [].
Proof.
  intros Hp Ht. unfold_methods. rewrite Hp. simpl. rewrite Ht. simpl. auto.
Qed.

Lemma X6_predict_without_tokenizer_witness :
  res (run toy_lib (predict snapshot_context input_example None new_instance)
         complete_bundle)
    = Raise (AttributeError "tokenizer").
Proof.
  refine (proj1 (X6_predict_without_tokenizer toy_lib complete_bundle
                   snapshot_context input_example None new_instance
                   "What is machine learning?" [] _ _)); reflexivity.
Defined.

(** X7: on an instance with a tokenizer and no model, [predict] never
    reaches [generate]: it makes at most two calls (it tokenizes the prompt
    and moves the tensor) and raises; when the library answers those two,
    what it raises is [AttributeError] for [model]. *)
Theorem X7_predict_without_model
    {W} (h : handler W) (w : W) context model_input params self t p rest :
  model_input !! "prompt" = Some (p :: rest) ->
  tokenizer self = Some t ->
  model self = None ->
  generate_calls (trace (run h (predict context model_input params self) w)) = [] /\
  length (trace (run h (predict context model_input params self) w)) <= 2 /\
  is_ok (res (run h (predict context model_input params self) w)) = false /\
  (forallb ev_fine (trace (run h (predict context model_input params self) w)) = true ->
   res (run h (predict context model_input params self) w)
     = Raise (AttributeError "model")).
Proof.
  intros Hp Ht Hm. unfold_methods. rewrite Hp. simpl. rewrite Ht. simpl.
  destruct (h _ (tokenizer_encode t (_build_prompt p) "pt") w) as [[x | e] w1];
    simpl; [| repeat split; auto; discriminate].
  destruct (h _ (tensor_to x "cpu") w1) as [[x' | e] w2];
    simpl; [| repeat split; auto; intros H; destruct x; discriminate H].
  rewrite Hm. simpl. repeat split; auto.
Qed.

Lemma X7_predict_without_model_witness :
  res (run toy_lib (predict snapshot_context input_example None
                      (self_after failed_load))
         complete_bundle)
    = Raise (AttributeError "model").
Proof.
  refine (proj2 (proj2 (proj2
            (X7_predict_without_model toy_lib complete_bundle snapshot_context
               input_example None (self_after failed_load) (TokenizerObj 1)
               "What is machine learning?" [] _ _ _))) _);
    vm_compute; reflexivity.
Defined.

(** X8: a parameter that is supplied reaches [model.generate] as it is,
    whatever its value (a string, [None]): in every run, every [generate]
    call gets [params["temperature"]] and [params["max_tokens"]] when these
    entries exist.  [predict] checks neither type nor range. *)
Theorem X8_supplied_parameters_pass_through
    {W} (h : handler W) (w : W) context model_input params self g :
  g ∈ generate_calls (trace (run h (predict context model_input params self) w)) ->
  (forall v, param_lookup params "temperature" = Some v -> ga_temperature g = v) /\
  (forall v, param_lookup params "max_tokens" = Some v -> ga_max_new_tokens g = v).
Proof.
  intros Hg. apply predict_generate_calls in Hg as (_ & -> & -> & _).
  rewrite !param_or_default_lookup.
  split; intros v ->; reflexivity.
Qed.

Lemma X8_supplied_parameters_pass_through_witness :
  odd_generate_args ∈ generate_calls (trace odd_call) /\
  ga_temperature odd_generate_args = PyStr "hot".
Proof.
  assert (Hin : odd_generate_args ∈ generate_calls (trace odd_call))
    by (vm_compute; apply list_elem_of_here).
  split; [exact Hin |].
  exact (proj1 (X8_supplied_parameters_pass_through toy_lib complete_bundle
                  snapshot_context input_example odd_params loaded
                  odd_generate_args Hin) (PyStr "hot") eq_refl).
Defined.

(** X9: of [params], [predict] uses the entries "temperature" and
    "max_tokens" and nothing else: two parameter dictionaries (or [None])
    with the same two entries give the same program, hence the same run
    against every library.  Unknown keys are ignored without complaint. *)
Theorem X9_only_two_parameters_matter
    {W} (h : handler W) (w : W) context model_input params1 params2 self :
  param_lookup params1 "temperature" = param_lookup params2 "temperature" ->
  param_lookup params1 "max_tokens" = param_lookup params2 "max_tokens" ->
  predict context model_input params1 self = predict context model_input params2 self /\
  run h (predict context model_input params1 self) w =
  run h (predict context model_input params2 self) w.
Proof.
  intros Ht Hm.
  assert (Heq : predict context model_input params1 self =
                predict context model_input params2 self).
  { unfold predict. rewrite !param_or_default_lookup, Ht, Hm. reflexivity. }
  split; [exact Heq | rewrite Heq; reflexivity].
Qed.

Lemma X9_only_two_parameters_matter_witness :
  run toy_lib (predict snapshot_context input_example odd_params loaded)
      complete_bundle =
  run toy_lib (predict snapshot_context input_example
                 (Some {[ "temperature" := PyStr "hot" ]}) loaded)
      complete_bundle.
Proof.
  refine (proj2 (X9_only_two_parameters_matter toy_lib complete_bundle
                   snapshot_context input_example odd_params
                   (Some {[ "temperature" := PyStr "hot" ]}) loaded _ _));
    vm_compute; reflexivity.
Defined.

(** X10: [predict] returns only at the end of the whole pipeline: in every
    run that returns, the library answered six calls, [generate] among them
    once, and the result is a dict with the one key "candidates" and exactly
    one candidate, however many sequences the model returned. *)
Theorem X10_predict_returns_one_candidate
    {W} (h : handler W) (w : W) context model_input params self v :
  res (run h (predict context model_input params self) w) = Ok v ->
  (exists cand, v = {[ "candidates" := [cand] ]}) /\
  length (trace (run h (predict context model_input params self) w)) = 6 /\
  forallb ev_answered
    (trace (run h (predict context model_input params self) w)) = true /\
  length (generate_calls (trace (run h (predict context model_input params self) w))) = 1.
Proof.
  unfold_methods. intros Hv.
  repeat any_step h; simpl in *; try discriminate Hv.
  injection Hv as <-. eauto.
Qed.

Lemma X10_predict_returns_one_candidate_witness :
  length (trace notebook_call) = 6 /\
  length (generate_calls (trace notebook_call)) = 1.
Proof.
  destruct (X10_predict_returns_one_candidate toy_lib complete_bundle
              snapshot_context input_example notebook_params loaded
              {[ "candidates" := [example_candidate] ]})
    as (_ & Hlen & _ & Hgen);
    [vm_compute; reflexivity |].
  split; [exact Hlen | exact Hgen].
Defined.

(** X11: [predict] uses the tokenizer and the model and nothing else of the
    library: every call of every run is [encode], [tensor.to], [generate] or
    [decode], never a loading routine, and there are at most six. *)
Theorem X11_predict_calls_inference_only
    {W} (h : handler W) (w : W) context model_input params self :
  forallb ev_is_inference
    (trace (run h (predict context model_input params self) w)) = true /\
  length (trace (run h (predict context model_input params self) w)) <= 6.
Proof.
  unfold_methods.
  repeat any_step h; simpl; split; auto; lia.
Qed.

(** X12: with a tokenizer that is a function [enc] of the text and a causal
    model, whose output row is its input row followed by new tokens [cont],
    the candidate [predict] returns is the decoding of exactly [cont]:
    dropping [len(enc(prompt))] leading tokens removes the prompt, all of it
    and nothing more. *)
Theorem X12_candidate_is_the_continuation
    {W} (h : handler W) (enc : string -> list Z) (w : W)
    context model_input params self t m p rest :
  tokenizer self = Some t ->
  model self = Some m ->
  model_input !! "prompt" = Some (p :: rest) ->
  (forall s rt w', fst (h _ (tokenizer_encode t s rt) w') = Ok [enc s]) ->
  (forall x d w', fst (h _ (tensor_to x d) w') = Ok x) ->
  (forall row w', exists cont outs,
      fst (h _ (model_generate m [row] true
                  (param_or_default params "temperature" (PyFloat 0.1))
                  (param_or_default params "max_tokens" (PyInt 1000))) w')
      = Ok ((row ++ cont) :: outs)) ->
  (forall ids b w', is_ok (fst (h _ (tokenizer_decode t ids b) w')) = true) ->
  exists cont outs txt cand,
    trace (run h (predict context model_input params self) w) =
      [ Event (tokenizer_encode t (_build_prompt p) "pt")
              (Ok [enc (_build_prompt p)]);
        Event (tensor_to [enc (_build_prompt p)] "cpu")
              (Ok [enc (_build_prompt p)]);
        Event (model_generate m [enc (_build_prompt p)] true
                 (param_or_default params "temperature" (PyFloat 0.1))
                 (param_or_default params "max_tokens" (PyInt 1000)))
              (Ok ((enc (_build_prompt p) ++ cont) :: outs));
        Event (tokenizer_decode t (enc (_build_prompt p) ++ cont) true) (Ok txt);
        Event (tokenizer_encode t (_build_prompt p) "pt")
              (Ok [enc (_build_prompt p)]);
        Event (tokenizer_decode t cont true) (Ok cand) ] /\
    res (run h (predict context model_input params self) w)
      = Ok {[ "candidates" := [cand] ]}.
Proof.
  intros Ht Hm Hp Henc Hto Hgen Hdec.
  unfold_methods. rewrite Hp. simpl. rewrite Ht. simpl.
  rewrite Henc. simpl. rewrite Hto. simpl. rewrite Hm. simpl.
  match goal with
  | |- context [h _ (model_generate m ?x true ?T ?N) ?w'] =>
      destruct (Hgen (enc (_build_prompt p)) w') as (cont & outs & Hout)
  end.
  rewrite Hout. simpl. rewrite Ht. simpl.
  match goal with
  | |- context [h _ (tokenizer_decode t ?ids true) ?w'] =>
      pose proof (Hdec ids true w') as Hd1;
      destruct (h _ (tokenizer_decode t ids true) w') as [[txt | e] w1];
      [clear Hd1 | discriminate Hd1]
  end.
  simpl. rewrite Ht. simpl. rewrite Henc. simpl. rewrite Ht. simpl.
  rewrite drop_app_length.
  match goal with
  | |- context [h _ (tokenizer_decode t ?ids true) ?w'] =>
      pose proof (Hdec ids true w') as Hd2;
      destruct (h _ (tokenizer_decode t ids true) w') as [[cand | e] w2];
      [clear Hd2 | discriminate Hd2]
  end.
  simpl. eauto 10.
Qed.

Lemma X12_candidate_is_the_continuation_witness :
  exists cand, res first_sample = Ok {[ "candidates" := [cand] ]}.
Proof.
  destruct (X12_candidate_is_the_continuation toy_lib char_encode complete_bundle
              snapshot_context input_example None loaded
              (TokenizerObj 1) (ModelObj 1) "What is machine learning?" [])
    as (cont & outs & txt & cand & _ & Hres).
  - reflexivity.
  - reflexivity.
  - vm_compute; reflexivity.
  - intros s rt w'. reflexivity.
  - intros x d w'. reflexivity.
  - intros row w'. eexists. exists []. reflexivity.
  - intros ids b w'. reflexivity.
  - exists cand. exact Hres.
Defined.

(* ===================================================================== *)
(** * Properties of [_build_prompt]                                        *)
(* ===================================================================== *)

(** X13: [_build_prompt] puts the instruction, as it is, between a fixed
    head and a fixed tail: the prompt is 170 characters longer than the
    instruction, contains the instruction and both keys, and two
    instructions with the same prompt are the same instruction. *)
Theorem X13_build_prompt_embeds_instruction (instruction : string) :
  String.length (_build_prompt instruction) = String.length instruction + 170 /\
  contains instruction (_build_prompt instruction) = true /\
  contains INSTRUCTION_KEY (_build_prompt instruction) = true /\
  contains RESPONSE_KEY (_build_prompt instruction) = true /\
  forall instruction',
    _build_prompt instruction = _build_prompt instruction' ->
    instruction = instruction'.
Proof.
  unfold _build_prompt. split; [| split; [| split; [| split]]].
  - rewrite !length_app.
    change (String.length INTRO_BLURB) with 105.
    change (String.length line_break) with 9.
    change (String.length INSTRUCTION_KEY) with 16.
    change (String.length RESPONSE_KEY) with 13.
    lia.
  - repeat first [apply contains_here | apply contains_app_r].
  - repeat first [apply contains_here | apply contains_app_r].
  - repeat first [apply contains_here | apply contains_app_r].
  - intros instruction' H.
    do 4 apply (inj (String.append _)) in H.
    apply app_inv_tail in H. exact H.
Qed.

(* ===================================================================== *)
(** * Pinning the requirements                                             *)
(* ===================================================================== *)

(** Splitting at a separator that does not occur gives the text back. *)
Lemma split_free (sep : ascii) (s : string) :
  mentions sep s = false -> split sep s = [s].
Proof.
  induction s as [| a s IH]; intros H; simpl in *; [reflexivity |].
  apply orb_false_elim in H as [Ha Hs]. rewrite Ha, (IH Hs). reflexivity.
Qed.

(** The first piece ends at the first separator. *)
Lemma split_first (sep : ascii) (a rest : string) :
  mentions sep a = false ->
  split sep (a +:+ String sep rest) = a :: split sep rest.
Proof.
  induction a as [| x a IH]; intros H; rewrite ?app_cons; simpl in *.
  - change ("" +:+ String sep rest) with (String sep rest). simpl.
    rewrite Ascii.eqb_refl. reflexivity.
  - apply orb_false_elim in H as [Hx Ha]. rewrite Hx, (IH Ha). reflexivity.
Qed.

(** A text either lacks the separator or is cut at its first occurrence. *)
Lemma first_separator (sep : ascii) (s : string) :
  mentions sep s = false \/
  exists a rest, s = a +:+ String sep rest /\ mentions sep a = false.
Proof.
  induction s as [| x s IH]; [left; reflexivity |].
  simpl. destruct (Ascii.eqb x sep) eqn:Hx.
  - right. apply Ascii.eqb_eq in Hx as ->. exists "", s. auto.
  - destruct IH as [Hs | (a & rest & -> & Ha)]; [left; exact Hs |].
    right. exists (String x a), rest. simpl. rewrite Hx, Ha. auto.
Qed.

(** X14: [torch.__version__.split("+")[0]] never raises and is the version
    up to its first "+": the version itself when it has no local tag, the
    part before the tag otherwise.  The torch requirement is pinned to that
    part, so it never carries a "+"; the other two versions are pinned as
    they are. *)
Theorem X14_torch_version_drops_local_tag
    (torch___version__ transformers___version__ accelerate___version__ : string) :
  exists public,
    torch_version torch___version__ = Ok public /\
    mentions "+" public = false /\
    (mentions "+" torch___version__ = false -> public = torch___version__) /\
    (mentions "+" torch___version__ = true ->
     exists tag, torch___version__ = public +:+ "+" +:+ tag) /\
    pip_requirements torch___version__ transformers___version__
                     accelerate___version__
      = Ok [ "torch==" +:+ public;
             "transformers==" +:+ transformers___version__;
             "accelerate==" +:+ accelerate___version__;
             "einops"; "sentencepiece" ].
Proof.
  unfold pip_requirements, torch_version.
  destruct (first_separator "+" torch___version__)
    as [Hfree | (a & tag & -> & Ha)].
  - exists torch___version__. rewrite (split_free _ _ Hfree). simpl.
    repeat split; auto. rewrite Hfree. discriminate.
  - exists a. rewrite (split_first _ _ _ Ha). simpl.
    repeat split; auto.
    + rewrite mentions_app. simpl. rewrite ?Ascii.eqb_refl, orb_true_r.
      discriminate.
    + intros _. exists tag. reflexivity.
Qed.

(* ===================================================================== *)
(** * Properties of the py-cache-key action                                *)
(* ===================================================================== *)

Lemma strip_line (s : string) :
  mentions CacheKey.newline s = false ->
  CacheKey.strip_trailing_newlines (s +:+ String CacheKey.newline "") = s.
Proof.
  induction s as [| a s IH]; intros H; [reflexivity |].
  rewrite app_cons. simpl in *.
  apply orb_false_elim in H as [Ha Hs]. rewrite (IH Hs), Ha.
  destruct s; reflexivity.
Qed.

(** X15: when [python --version] prints one line, a name and a version
    with one blank between them, [PYTHON_VERSION] is the version. *)
Theorem X15_python_version_is_second_field (r : CacheKey.runner) (name v : string) :
  CacheKey.python_version_stdout r
    = name +:+ " " +:+ v +:+ String CacheKey.newline "" ->
  mentions " " name = false ->
  mentions CacheKey.newline name = false ->
  mentions " " v = false ->
  mentions CacheKey.newline v = false ->
  CacheKey.PYTHON_VERSION r = v.
Proof.
  intros Hout Hn1 Hn2 Hv1 Hv2.
  unfold CacheKey.PYTHON_VERSION, CacheKey.lines. rewrite Hout.
  assert (Hline : mentions CacheKey.newline (name +:+ " " +:+ v) = false).
  { rewrite mentions_app, Hn2. simpl. exact Hv2. }
  assert (Hsplit : split CacheKey.newline
                     (name +:+ " " +:+ v +:+ String CacheKey.newline "")
                   = [name +:+ " " +:+ v; ""]).
  { replace (name +:+ " " +:+ v +:+ String CacheKey.newline "")
      with ((name +:+ " " +:+ v) +:+ String CacheKey.newline "")
      by (rewrite !app_assoc; reflexivity).
    rewrite (split_first _ _ _ Hline). reflexivity. }
  assert (Htext : exists a t,
             name +:+ " " +:+ v +:+ String CacheKey.newline "" = String a t).
  { destruct name; [exists " "%char | exists a]; eexists; reflexivity. }
  destruct Htext as (a & t & Htext). rewrite Htext, <- Htext, Hsplit. simpl.
  unfold CacheKey.cut_f2.
  change (name +:+ " " +:+ v) with (name +:+ String " " v).
  rewrite (split_first _ _ _ Hn1), (split_free _ _ Hv1).
  apply strip_line, Hv2.
Qed.

Lemma X15_python_version_is_second_field_witness :
  CacheKey.PYTHON_VERSION CacheKey.ubuntu_runner = "3.8.13".
Proof.
  apply (X15_python_version_is_second_field CacheKey.ubuntu_runner "Python" "3.8.13");
    reflexivity.
Defined.

(** A decimal digit is no other character. *)
Lemma digit_code (n : N) : N_of_ascii (CacheKey.digit n) = (48 + n mod 10)%N.
Proof.
  unfold CacheKey.digit. apply N_ascii_embedding.
  pose proof (N.mod_lt n 10). lia.
Qed.

Lemma digit_is_not (c : ascii) (n : N) :
  (N_of_ascii c < 48 \/ 57 < N_of_ascii c)%N ->
  Ascii.eqb (CacheKey.digit n) c = false.
Proof.
  intros Hc. apply Ascii.eqb_neq. intros <-.
  rewrite digit_code in Hc. pose proof (N.mod_lt n 10) as Hlt.
  set (k := (n mod 10)%N) in *. lia.
Qed.

Lemma digit_inj (a b : N) :
  CacheKey.digit a = CacheKey.digit b -> (a mod 10 = b mod 10)%N.
Proof.
  intros H. apply (f_equal N_of_ascii) in H. rewrite !digit_code in H.
  apply N.add_cancel_l in H. exact H.
Qed.

(** Numbers with the same last digit and the same digits before it. *)
Lemma decimal_step (a b : N) :
  CacheKey.digit a = CacheKey.digit b -> (a / 10 = b / 10)%N -> a = b.
Proof.
  intros Hd Hq. apply digit_inj in Hd.
  rewrite (N.div_mod a 10), (N.div_mod b 10), Hd, Hq by discriminate.
  reflexivity.
Qed.

Lemma leading_digit (a b : N) :
  (a < 10)%N -> (b < 10)%N ->
  CacheKey.digit a = CacheKey.digit b -> a = b.
Proof.
  intros Ha Hb Hd. apply digit_inj in Hd.
  rewrite !N.mod_small in Hd by assumption. exact Hd.
Qed.

Lemma format_Ymd_has_no (c : ascii) (d : CacheKey.date) :
  (N_of_ascii c < 48 \/ 57 < N_of_ascii c)%N ->
  mentions c (CacheKey.format_Ymd d) = false.
Proof.
  intros Hc. unfold CacheKey.format_Ymd, CacheKey.two_digits.
  rewrite !app_cons. simpl. rewrite !(digit_is_not c) by exact Hc. reflexivity.
Qed.

Lemma DATE_format (r : CacheKey.runner) :
  CacheKey.DATE r = CacheKey.format_Ymd (CacheKey.utc_today r).
Proof.
  apply strip_line, format_Ymd_has_no. vm_compute. left. reflexivity.
Qed.

Lemma two_digits_inj (a b : N) :
  (a < 100)%N -> (b < 100)%N ->
  CacheKey.digit (a / 10) = CacheKey.digit (b / 10) ->
  CacheKey.digit a = CacheKey.digit b ->
  a = b.
Proof.
  intros Ha Hb H1 H0. apply decimal_step; [exact H0 |].
  apply leading_digit; [| | exact H1]; apply N.Div0.div_lt_upper_bound; lia.
Qed.

Lemma four_digits_inj (a b : N) :
  (a < 10000)%N -> (b < 10000)%N ->
  CacheKey.digit (a / 1000) = CacheKey.digit (b / 1000) ->
  CacheKey.digit (a / 100) = CacheKey.digit (b / 100) ->
  CacheKey.digit (a / 10) = CacheKey.digit (b / 10) ->
  CacheKey.digit a = CacheKey.digit b ->
  a = b.
Proof.
  intros Ha Hb H3 H2 H1 H0.
  change 1000%N with (10 * 10 * 10)%N in H3.
  change 100%N with (10 * 10)%N in H2.
  repeat rewrite <- N.Div0.div_div in H3.
  repeat rewrite <- N.Div0.div_div in H2.
  apply decimal_step; [exact H0 |].
  apply decimal_step; [exact H1 |].
  apply decimal_step; [exact H2 |].
  apply leading_digit; [| | exact H3];
    rewrite !N.Div0.div_div; apply N.Div0.div_lt_upper_bound; lia.
Qed.

(** The eight digits tell the day. *)
Lemma format_Ymd_inj (d1 d2 : CacheKey.date) :
  CacheKey.valid_date d1 -> CacheKey.valid_date d2 ->
  CacheKey.format_Ymd d1 = CacheKey.format_Ymd d2 -> d1 = d2.
Proof.
  intros (Hy1 & Hm1 & Hd1) (Hy2 & Hm2 & Hd2).
  destruct d1 as [y1 m1 d1], d2 as [y2 m2 d2].
  unfold CacheKey.format_Ymd, CacheKey.two_digits. simpl in *.
  rewrite !app_cons. intros H.
  injection H as Hy3 Hy2' Hy1' Hy0 Hm1' Hm0 Hd1' Hd0.
  assert (m1 = m2) as -> by (apply two_digits_inj; auto; lia).
  assert (d1 = d2) as -> by (apply two_digits_inj; auto; lia).
  assert (y1 = y2) as -> by (apply four_digits_inj; auto; lia).
  reflexivity.
Qed.

Lemma DATE_has_no_dash (r : CacheKey.runner) :
  mentions "-" (CacheKey.DATE r) = false.
Proof.
  rewrite DATE_format. apply format_Ymd_has_no. vm_compute. left. reflexivity.
Qed.

(** X16: [DATE] is the day in eight decimal digits, and it tells days
    apart: two days of four-digit years with the same [DATE] are the same
    day, so the key changes every UTC day. *)
Theorem X16_date_is_eight_digits_and_tells_days_apart (r1 r2 : CacheKey.runner) :
  CacheKey.valid_date (CacheKey.utc_today r1) ->
  CacheKey.valid_date (CacheKey.utc_today r2) ->
  String.length (CacheKey.DATE r1) = 8 /\
  mentions "-" (CacheKey.DATE r1) = false /\
  (CacheKey.DATE r1 = CacheKey.DATE r2 ->
   CacheKey.utc_today r1 = CacheKey.utc_today r2).
Proof.
  intros Hd1 Hd2.
  split; [rewrite DATE_format; reflexivity |].
  split; [apply DATE_has_no_dash |].
  rewrite !DATE_format. apply format_Ymd_inj; assumption.
Qed.

Lemma X16_date_is_eight_digits_and_tells_days_apart_witness :
  String.length (CacheKey.DATE CacheKey.ubuntu_runner) = 8 /\
  mentions "-" (CacheKey.DATE CacheKey.ubuntu_runner) = false.
Proof.
  destruct (X16_date_is_eight_digits_and_tells_days_apart
              CacheKey.ubuntu_runner CacheKey.ubuntu_runner_next_day)
    as (Hlen & Hdash & _).
  - unfold CacheKey.valid_date. simpl. lia.
  - unfold CacheKey.valid_date. simpl. lia.
  - split; [exact Hlen | exact Hdash].
Defined.

Lemma dash_cut (a a' r r' : string) :
  mentions "-" a = false -> mentions "-" a' = false ->
  a +:+ "-" +:+ r = a' +:+ "-" +:+ r' ->
  a = a' /\ r = r'.
Proof. apply first_occurrence. Qed.

(** The parts of a key whose parts have no dash can be read off it. *)
Lemma cache_key_inj (r1 r2 : CacheKey.runner) :
  CacheKey.dash_free r1 -> CacheKey.dash_free r2 ->
  CacheKey.valid_date (CacheKey.utc_today r1) ->
  CacheKey.valid_date (CacheKey.utc_today r2) ->
  CacheKey.cache_key r1 = CacheKey.cache_key r2 ->
  CacheKey.ImageOS r1 = CacheKey.ImageOS r2 /\
  CacheKey.ImageVersion r1 = CacheKey.ImageVersion r2 /\
  CacheKey.PYTHON_VERSION r1 = CacheKey.PYTHON_VERSION r2 /\
  CacheKey.utc_today r1 = CacheKey.utc_today r2 /\
  CacheKey.REQUIREMENTS_HASH r1 = CacheKey.REQUIREMENTS_HASH r2.
Proof.
  intros (Ho1 & Hv1 & Hp1 & Hh1) (Ho2 & Hv2 & Hp2 & Hh2) Hd1 Hd2 H.
  pose proof (DATE_has_no_dash r1) as Hdash1.
  pose proof (DATE_has_no_dash r2) as Hdash2.
  unfold CacheKey.cache_key, CacheKey.RUNNER_IMAGE in H.
  rewrite !app_assoc in H.
  apply dash_cut in H as [Hos H]; [| assumption ..].
  apply dash_cut in H as [Hver H]; [| assumption ..].
  apply dash_cut in H as [Hpy H]; [| assumption ..].
  apply dash_cut in H as [Hdate H]; [| assumption ..].
  apply dash_cut in H as [Hhash _]; [| assumption ..].
  repeat split; auto.
  rewrite !DATE_format in Hdate. apply format_Ymd_inj; assumption.
Qed.

(** X17: the key tells runs apart.  When no part the runner supplies (OS,
    image version, Python version, requirements hash) has a dash in it, two
    runs that differ in the image, the Python version, the UTC day or the
    requirements hash compute different keys; when the commands of both
    steps succeed, both steps end with status 0 and, started on the same
    [$GITHUB_OUTPUT], leave different files.  A step one of whose commands
    ([python], [cut], [date]) fails ends with a status other than 0 and
    leaves [$GITHUB_OUTPUT] as it was: under [bash -e -o pipefail] the
    script stops before the [echo]. *)
Theorem X17_key_changes_with_every_part
    (r1 r2 : CacheKey.runner) (s1 s2 : CacheKey.exit_statuses) :
  CacheKey.dash_free r1 -> CacheKey.dash_free r2 ->
  CacheKey.valid_date (CacheKey.utc_today r1) ->
  CacheKey.valid_date (CacheKey.utc_today r2) ->
  CacheKey.ImageOS r1 <> CacheKey.ImageOS r2 \/
  CacheKey.ImageVersion r1 <> CacheKey.ImageVersion r2 \/
  CacheKey.PYTHON_VERSION r1 <> CacheKey.PYTHON_VERSION r2 \/
  CacheKey.utc_today r1 <> CacheKey.utc_today r2 \/
  CacheKey.REQUIREMENTS_HASH r1 <> CacheKey.REQUIREMENTS_HASH r2 ->
  CacheKey.cache_key r1 <> CacheKey.cache_key r2 /\
  (CacheKey.commands_succeed s1 -> CacheKey.commands_succeed s2 ->
   CacheKey.GITHUB_OUTPUT r1 = CacheKey.GITHUB_OUTPUT r2 ->
   fst (CacheKey.cache_key_step r1 s1) = 0%Z /\
   fst (CacheKey.cache_key_step r2 s2) = 0%Z /\
   snd (CacheKey.cache_key_step r1 s1) <> snd (CacheKey.cache_key_step r2 s2)) /\
  (~ CacheKey.commands_succeed s1 ->
   fst (CacheKey.cache_key_step r1 s1) <> 0%Z /\
   snd (CacheKey.cache_key_step r1 s1) = CacheKey.GITHUB_OUTPUT r1).
Proof.
  intros Hf1 Hf2 Hd1 Hd2 Hdiff.
  assert (Hkey : CacheKey.cache_key r1 <> CacheKey.cache_key r2).
  { intros H.
    destruct (cache_key_inj r1 r2 Hf1 Hf2 Hd1 Hd2 H) as (? & ? & ? & ? & ?).
    tauto. }
  split; [exact Hkey |]. split.
  - intros (Hp1 & Hc1 & Hdt1) (Hp2 & Hc2 & Hdt2) Hout.
    unfold CacheKey.cache_key_step, CacheKey.pipeline_status.
    rewrite Hp1, Hc1, Hdt1, Hp2, Hc2, Hdt2. simpl.
    split; [reflexivity |]. split; [reflexivity |].
    intros Hstep. apply Hkey. rewrite Hout in Hstep.
    apply (inj (String.append _)) in Hstep.
    apply (inj (String.append _)) in Hstep.
    apply app_inv_tail in Hstep. exact Hstep.
  - intros Hfail.
    unfold CacheKey.cache_key_step, CacheKey.pipeline_status,
      CacheKey.commands_succeed in *.
    destruct (Z.eqb_spec (CacheKey.cut_exit s1) 0) as [Hc | Hc].
    + destruct (Z.eqb_spec (CacheKey.python_exit s1) 0) as [Hp | Hp]; simpl.
      * destruct (Z.eqb_spec (CacheKey.date_exit s1) 0) as [Hdt | Hdt]; simpl.
        -- tauto.
        -- auto.
      * auto.
    + apply Z.eqb_neq in Hc as Hc'. rewrite Hc'. simpl. auto.
Qed.

Lemma X17_key_changes_with_every_part_witness :
  (snd (CacheKey.cache_key_step CacheKey.ubuntu_runner CacheKey.all_succeed) =?
   snd (CacheKey.cache_key_step CacheKey.ubuntu_runner_next_day CacheKey.all_succeed)
  )%string = false /\
  CacheKey.cache_key_step CacheKey.ubuntu_runner CacheKey.python_missing
    = (127%Z, CacheKey.GITHUB_OUTPUT CacheKey.ubuntu_runner).
Proof.
  split; [| reflexivity].
  apply String.eqb_neq.
  apply (X17_key_changes_with_every_part
           CacheKey.ubuntu_runner CacheKey.ubuntu_runner_next_day
           CacheKey.all_succeed CacheKey.all_succeed).
  - repeat split; reflexivity.
  - repeat split; reflexivity.
  - unfold CacheKey.valid_date. simpl. lia.
  - unfold CacheKey.valid_date. simpl. lia.
  - right. right. right. left. discriminate.
  - repeat split; reflexivity.
  - repeat split; reflexivity.
  - reflexivity.
Defined.
